(** * paint-server: the product catalogue routes of [server.js]

    [server.js] holds two variants of the same Express server, separated by
    a document separator: variant 1 (lines 1-154) and variant 2
    (lines 155-326).  Both are embedded here, each in a module of its own,
    over one shared model of the world the routes act on: the [products]
    collection, the files on disk and the console. *)

From Stdlib Require Import String Ascii List NArith QArith_base DecimalString Lia.
From Stdlib Require DecimalPos DecimalN.
From stdpp Require Import base option list strings gmap.

Local Open Scope string_scope.

(** * Node's [path] module (POSIX flavour)

    Only [path.join] is called by the routes; [normalize] is what [join]
    ends with.  Segments are separated by ["/"]. *)
Module Path.

Definition sep : ascii := "/"%char.

(** [split s] cuts [s] at every separator: [split "a//b" = ["a"; ""; "b"]]. *)
Fixpoint split (s : string) : list string :=
  match s with
  | EmptyString => [EmptyString]
  | String c rest =>
      if Ascii.eqb c sep then EmptyString :: split rest
      else match split rest with
           | seg :: segs => String c seg :: segs
           | [] => [String c EmptyString]
           end
  end.

Definition is_absolute (p : string) : bool :=
  match p with String c _ => Ascii.eqb c sep | EmptyString => false end.

Definition has_trailing_sep (p : string) : bool :=
  match last (split p) with
  | Some EmptyString => negb (String.eqb p "")
  | _ => false
  end.

(** One step of [normalizeString]: [acc] is the stack of kept segments,
    innermost first. *)
Definition push_segment (allow_above_root : bool) (acc : list string) (seg : string) : list string :=
  if String.eqb seg "" || String.eqb seg "." then acc
  else if String.eqb seg ".." then
    match acc with
    | [] => if allow_above_root then [".."] else []
    | top :: below =>
        if String.eqb top ".." then ".." :: acc else below
    end
  else seg :: acc.

Definition normalize_segments (allow_above_root : bool) (segs : list string) : list string :=
  rev (fold_left (push_segment allow_above_root) segs []).

Fixpoint concat_with (segs : list string) : string :=
  match segs with
  | [] => ""
  | [seg] => seg
  | seg :: rest => seg +:+ "/" +:+ concat_with rest
  end.

Definition normalize (p : string) : string :=
  if String.eqb p "" then "."
  else
    let absolute := is_absolute p in
    let trailing := has_trailing_sep p in
    let inner := concat_with (normalize_segments (negb absolute) (split p)) in
    if String.eqb inner "" then
      if absolute then "/" else if trailing then "./" else "."
    else
      let inner := if trailing then inner +:+ "/" else inner in
      if absolute then "/" +:+ inner else inner.

Definition join (a b : string) : string :=
  if String.eqb a "" then (if String.eqb b "" then "." else normalize b)
  else if String.eqb b "" then normalize a
  else normalize (a +:+ "/" +:+ b).

(** The last segment of a path. *)
Definition basename (p : string) : string :=
  default "" (last (split p)).

End Path.

(** * Values *)

(** A JS number that the routes only carry around (never compute with). *)
Definition number : Type := Q.

(** An [ObjectId], in the string form it has in [req.params.id]. *)
Definition oid : Type := string.

(** A document of the [products] collection (the schema of lines 35-40).
    [image = None] is a stored [null]. *)
Record product : Type := Product {
  _id : oid;
  name : string;
  price : number;
  description : string;
  image : option string
}.

Inductive error : Type :=
| ReferenceError (message : string)
| ValidationError (message : string)
| MongoError (message : string).

Definition error_message (e : error) : string :=
  match e with
  | ReferenceError m | ValidationError m | MongoError m => m
  end.

(** The calls the routes make on [productModel]. *)
Inductive db_call : Type :=
| Save
| Find
| FindById (id : oid)
| FindByIdAndUpdate (id : oid)
| FindByIdAndDelete (id : oid).

(** What a request meets from outside the program: the clock read by
    [Date.now()], the [ObjectId] that [new productModel] draws, the
    directory of the script and the working directory of the process, and
    the faults of the two stores: a database call that rejects (server
    unreachable, an id that does not cast to an [ObjectId]), an [unlink]
    that the operating system refuses. *)
Record env : Type := Env {
  now : N;
  new_oid : oid;
  __dirname : string;
  cwd : string;
  db_fault : db_call -> option error;
  unlink_fault : string -> option string
}.

(** What the routes read and change. *)
Record world : Type := World {
  db : list product;
  files : gset string;
  console : list (string * string)
}.

Definition with_db (d : list product) (w : world) : world :=
  {| db := d; files := files w; console := console w |}.
Definition with_files (f : gset string) (w : world) : world :=
  {| db := db w; files := f; console := console w |}.
Definition console_error (label detail : string) (w : world) : world :=
  {| db := db w; files := files w; console := console w ++ [(label, detail)] |}.

(** * Effects: state that survives a thrown error *)

Definition M (A : Type) : Type := world -> world * (error + A).

Definition ret {A} (a : A) : M A := fun w => (w, inr a).
Definition throw {A} (e : error) : M A := fun w => (w, inl e).
Definition bind {A B} (m : M A) (k : A -> M B) : M B :=
  fun w => match m w with
           | (w', inr a) => k a w'
           | (w', inl e) => (w', inl e)
           end.
Definition try_catch {A} (body : M A) (handler : error -> M A) : M A :=
  fun w => match body w with
           | (w', inr a) => (w', inr a)
           | (w', inl e) => handler e w'
           end.
Definition get_world : M world := fun w => (w, inr w).
Definition modify_world (f : world -> world) : M unit := fun w => (f w, inr tt).

Declare Scope js_scope.
Delimit Scope js_scope with js.
Notation "x <- m ;; k" := (bind m (fun x => k))
  (at level 100, m at next level, right associativity) : js_scope.
Notation "m ;;; k" := (bind m (fun _ => k))
  (at level 100, right associativity) : js_scope.
Notation "'try' b 'catch' h" := (try_catch b h)
  (at level 100, b at next level, h at next level) : js_scope.
Local Open Scope js_scope.

(** * The HTTP messages *)

Record file_part : Type := FilePart { originalname : string }.

Record request : Type := Request {
  protocol : string;
  host : string;
  params_id : oid;
  body_name : option string;
  body_price : option number;
  body_description : option string;
  file_image : option file_part
}.

(** [req.file] once multer has stored the upload. *)
Record uploaded : Type := Uploaded { filename : string }.

Inductive json : Type :=
| JProduct (p : product)
| JProducts (ps : list product)
| JMessage (message : string)
| JError (e : error)
| JInternal (message err : string).

Record response : Type := Response { status : nat; body : json }.

(** [res.status(code).json(body)] *)
Definition res_status_json (code : nat) (b : json) : M response :=
  ret {| status := code; body := b |}.

(** * The libraries the routes call

    These are not code of the repository; each is modelled by the part of
    its documented contract that the routes rely on. *)

(** ** mongoose: the [products] model over the collection [db]

    Modelled from the spec: the mongoose model behind [productModel], which
    is a library and not under src/.  It is the Product Repository of the
    specification: [create] assigns an id, stores the fields and fails when
    a required one is missing; [list] returns all records in insertion
    order; [updateById] merges the provided fields into the record with the
    id or signals that there is none; [deleteById] removes and returns it or
    signals that there is none. *)
Module Mongoose.

(** The object handed to [new productModel(...)]: a field is [None]
    when the request did not carry it. *)
Record draft : Type := Draft {
  d_name : option string;
  d_price : option number;
  d_description : option string;
  d_image : option string
}.

(** The update object of [findByIdAndUpdate]: a key whose value is
    [undefined], or that is not there, is not part of the update. *)
Record update : Type := Update {
  u_name : option string;
  u_price : option number;
  u_description : option string;
  u_image : option string
}.

Definition has_id (id : oid) (p : product) : bool := String.eqb id (_id p).

Definition lookup (id : oid) (d : list product) : option product :=
  List.find (has_id id) d.

Definition merge (u : update) (p : product) : product :=
  {| _id := _id p;
     name := default (name p) (u_name u);
     price := default (price p) (u_price u);
     description := default (description p) (u_description u);
     image := match u_image u with Some i => Some i | None => image p end |}.

(** Apply [f] to the first document with the id. *)
Fixpoint update_first (id : oid) (f : product -> product) (d : list product) : list product :=
  match d with
  | [] => []
  | p :: rest => if has_id id p then f p :: rest else p :: update_first id f rest
  end.

(** Drop the first document with the id. *)
Fixpoint delete_first (id : oid) (d : list product) : list product :=
  match d with
  | [] => []
  | p :: rest => if has_id id p then rest else p :: delete_first id rest
  end.

(** A string field marked [required] rejects a missing and an empty
    value; a number field marked [required] rejects a missing one. *)
Definition required_string (field : string) (v : option string) : error + string :=
  match v with
  | Some s => if String.eqb s "" then inl (ValidationError (field +:+ " is required"))
              else inr s
  | None => inl (ValidationError (field +:+ " is required"))
  end.

Definition required_number (field : string) (v : option number) : error + number :=
  match v with
  | Some n => inr n
  | None => inl (ValidationError (field +:+ " is required"))
  end.

Definition validate (id : oid) (d : draft) : error + product :=
  match required_string "name" (d_name d) with
  | inl e => inl e
  | inr n =>
      match required_number "price" (d_price d) with
      | inl e => inl e
      | inr p =>
          match required_string "description" (d_description d) with
          | inl e => inl e
          | inr ds => inr {| _id := id; name := n; price := p; description := ds; image := d_image d |}
          end
      end
  end.

Section Calls.
Variable E : env.

(** Every call first meets the database: a fault rejects it. *)
Definition call (c : db_call) : M unit :=
  match db_fault E c with
  | Some e => throw e
  | None => ret tt
  end.

(** [new productModel(d).save()]: the document gets its [_id], is
    validated, then inserted; the unique index on [_id] rejects an id
    that is taken. *)
Definition save (d : draft) : M product :=
  match validate (new_oid E) d with
  | inl e => throw e
  | inr p =>
      call Save ;;;
      w <- get_world ;;
      match lookup (_id p) (db w) with
      | Some _ => throw (MongoError "E11000 duplicate key error")
      | None => modify_world (with_db (db w ++ [p])) ;;; ret p
      end
  end.

Definition find : M (list product) :=
  call Find ;;;
  w <- get_world ;;
  ret (db w).

Definition findById (id : oid) : M (option product) :=
  call (FindById id) ;;;
  w <- get_world ;;
  ret (lookup id (db w)).

(** With [{ new: true }]: resolves to the document after the update,
    or to [null] when no document has the id. *)
Definition findByIdAndUpdate (id : oid) (u : update) : M (option product) :=
  call (FindByIdAndUpdate id) ;;;
  w <- get_world ;;
  match lookup id (db w) with
  | Some p =>
      modify_world (with_db (update_first id (merge u) (db w))) ;;;
      ret (Some (merge u p))
  | None => ret None
  end.

(** Resolves to the removed document, or to [null]. *)
Definition findByIdAndDelete (id : oid) : M (option product) :=
  call (FindByIdAndDelete id) ;;;
  w <- get_world ;;
  match lookup id (db w) with
  | Some p =>
      modify_world (with_db (delete_first id (db w))) ;;;
      ret (Some p)
  | None => ret None
  end.
End Calls.

End Mongoose.

(** ** The file system, as [fs] and multer reach it

    Modelled from the spec: the Image Store, which is Node's [fs] and not
    under src/.  Deleting a stored path removes the file; it fails when the
    file is already absent or the system refuses. *)
Module Fs.

Section Calls.
Variable E : env.

(** A relative path is taken from the working directory. *)
Definition locate (p : string) : string :=
  if Path.is_absolute p then Path.normalize p else Path.join (cwd E) p.

(** The error [fs.unlink] hands to its callback, if any: the file is
    not there, or the system refuses. *)
Definition unlink_error (p : string) (w : world) : option string :=
  if decide (locate p ∈ files w) then unlink_fault E (locate p)
  else Some "ENOENT".

(** [fs.unlink(p, cb)]: the file goes when there is no error; the
    callback gets the error or [null].  The callback is run in place;
    the routes do not wait for it, and nothing they do afterwards
    reads what it leaves. *)
Definition unlink (p : string) (cb : option string -> M unit) : M unit :=
  w <- get_world ;;
  match unlink_error p w with
  | Some err => cb (Some err)
  | None => modify_world (with_files (files w ∖ {[locate p]})) ;;; cb None
  end.

Definition write_file (p : string) : M unit :=
  w <- get_world ;;
  modify_world (with_files ({[locate p]} ∪ files w)).
End Calls.

End Fs.

(** ** multer: [upload.single("image")] with the disk storage of
    lines 45-54 (205-214 in variant 2, the same text)

    Modelled from the spec: the Upload Handler, whose engine is the multer
    library and not under src/: at most one file per request under a known
    field name, stored as it is in the upload directory under the name the
    storage generates; with no file the request goes on without one.  The
    [destination] and [filename] callbacks are the source's. *)
Module Multer.

Definition decimal (n : N) : string := NilZero.string_of_uint (N.to_uint n).

Section Storage.
Variable E : env.

(** [destination]: [cb(null, 'uploads/')] *)
Definition destination : string := "uploads/".

(** [filename]: [cb(null, `${Date.now()}-${file.originalname}`)] *)
Definition storage_filename (file : file_part) : string :=
  decimal (now E) +:+ "-" +:+ originalname file.

(** The middleware: a file part of the form is written under the
    destination with the generated name and becomes [req.file]; with
    no file part [req.file] stays [undefined]. *)
Definition single (req : request) : M (option uploaded) :=
  match file_image req with
  | Some file =>
      Fs.write_file E (Path.join destination (storage_filename file)) ;;;
      ret (Some {| filename := storage_filename file |})
  | None => ret None
  end.
End Storage.

End Multer.

(** * The routes *)

Import Mongoose.

(** [(err) => { if (err) { console.error(label, err); } }] *)
Definition log_if_error (label : string) (err : option string) : M unit :=
  match err with
  | Some e => modify_world (console_error label e)
  | None => ret tt
  end.

(** [req.file ? `/uploads/${req.file.filename}` : null] *)
Definition imageUrl (req_file : option uploaded) : option string :=
  match req_file with
  | Some f => Some ("/uploads/" +:+ filename f)
  | None => None
  end.

(** The image of [product] when [product && product.image] is truthy:
    there is a document, and its image is a string that is not empty. *)
Definition existing_image (product : option product) : option string :=
  match product with
  | Some p =>
      match image p with
      | Some img => if String.eqb img "" then None else Some img
      | None => None
      end
  | None => None
  end.

(** [{ name: req.body.name, price: req.body.price,
       description: req.body.description }] *)
Definition updatedData (req : request) : update :=
  {| u_name := body_name req;
     u_price := body_price req;
     u_description := body_description req;
     u_image := None |}.

(** [updatedData.image = v] *)
Definition set_image (v : string) (u : update) : update :=
  {| u_name := u_name u;
     u_price := u_price u;
     u_description := u_description u;
     u_image := Some v |}.

(** ** Variant 1 (lines 1-154) *)
Module V1.
Section Routes.
Variable E : env.

(** This variant has no [import fs]: [fs] is not bound, and evaluating
    [fs.unlink] throws before anything is called. *)
Definition fs_unlink (p : string) (cb : option string -> M unit) : M unit :=
  throw (ReferenceError "fs is not defined").

(** Lines 59-75, after the middleware. *)
Definition post_products_handler (req : request) (req_file : option uploaded) : M response :=
  let newProduct :=
    {| d_name := body_name req;
       d_price := body_price req;
       d_description := body_description req;
       d_image := imageUrl req_file |} in
  try (savedProduct <- save E newProduct ;;
       res_status_json 200 (JProduct savedProduct))
  catch (fun error => res_status_json 500 (JError error)).

(** Lines 80-87. *)
Definition get_products (req : request) : M response :=
  try (products <- find E ;;
       res_status_json 200 (JProducts products))
  catch (fun error => res_status_json 500 (JError error)).

(** Lines 92-132, after the middleware. *)
Definition put_products_id_handler (req : request) (req_file : option uploaded) : M response :=
  try (data <-
         match req_file with
         | Some f =>
             product <- findById E (params_id req) ;;
             match existing_image product with
             | Some img =>
                 let oldImagePath := Path.join (__dirname E) img in
                 fs_unlink oldImagePath (log_if_error "Error deleting old image:")
             | None => ret tt
             end ;;;
             ret (set_image ("/uploads/" +:+ filename f) (updatedData req))
         | None => ret (updatedData req)
         end ;;
       updatedProduct <- findByIdAndUpdate E (params_id req) data ;;
       match updatedProduct with
       | None => res_status_json 404 (JMessage "Product not found")
       | Some p => res_status_json 200 (JProduct p)
       end)
  catch (fun error => res_status_json 500 (JError error)).

(** Lines 136-148. *)
Definition delete_products_id (req : request) : M response :=
  try (deletedProduct <- findByIdAndDelete E (params_id req) ;;
       match deletedProduct with
       | None => res_status_json 404 (JMessage "Product not found")
       | Some _ => res_status_json 200 (JMessage "Product deleted successfully")
       end)
  catch (fun error => res_status_json 500 (JError error)).

(** The routes with [upload.single("image")] in front. *)
Definition post_products (req : request) : M response :=
  req_file <- Multer.single E req ;;
  post_products_handler req req_file.

Definition put_products_id (req : request) : M response :=
  req_file <- Multer.single E req ;;
  put_products_id_handler req req_file.

End Routes.
End V1.

(** ** Variant 2 (lines 155-326) *)
Module V2.
Section Routes.
Variable E : env.

(** [{ ...product._doc,
       image: product.image
         ? `${req.protocol}://${req.get('host')}${product.image}` : null }] *)
Definition with_absolute_url (req : request) (p : product) : product :=
  {| _id := _id p;
     name := name p;
     price := price p;
     description := description p;
     image := match existing_image (Some p) with
              | Some img => Some (protocol req +:+ "://" +:+ host req +:+ img)
              | None => None
              end |}.

(** [console.error(label, error);
     res.status(500).json({ message: "Internal Server Error",
                            error: error.message })] *)
Definition internal_server_error (label : string) (error : error) : M response :=
  modify_world (console_error label (error_message error)) ;;;
  res_status_json 500 (JInternal "Internal Server Error" (error_message error)).

(** Lines 217-234, after the middleware. *)
Definition post_products_handler (req : request) (req_file : option uploaded) : M response :=
  let newProduct :=
    {| d_name := body_name req;
       d_price := body_price req;
       d_description := body_description req;
       d_image := imageUrl req_file |} in
  try (savedProduct <- save E newProduct ;;
       res_status_json 200 (JProduct savedProduct))
  catch (internal_server_error "Error saving product:").

(** Lines 237-249. *)
Definition get_products (req : request) : M response :=
  try (products <- find E ;;
       let productsWithAbsoluteUrls := map (with_absolute_url req) products in
       res_status_json 200 (JProducts productsWithAbsoluteUrls))
  catch (internal_server_error "Error fetching products:").

(** Lines 252-294, after the middleware. *)
Definition put_products_id_handler (req : request) (req_file : option uploaded) : M response :=
  try (data <-
         match req_file with
         | Some f =>
             product <- findById E (params_id req) ;;
             match existing_image product with
             | Some img =>
                 let oldImagePath := Path.join (__dirname E) img in
                 Fs.unlink E oldImagePath (log_if_error "Error deleting old image:")
             | None => ret tt
             end ;;;
             ret (set_image ("/uploads/" +:+ filename f) (updatedData req))
         | None => ret (updatedData req)
         end ;;
       updatedProduct <- findByIdAndUpdate E (params_id req) data ;;
       match updatedProduct with
       | None => res_status_json 404 (JMessage "Product not found")
       | Some p => res_status_json 200 (JProduct (with_absolute_url req p))
       end)
  catch (internal_server_error "Error updating product:").

(** Lines 297-320. *)
Definition delete_products_id (req : request) : M response :=
  try (product <- findById E (params_id req) ;;
       match product with
       | None => res_status_json 404 (JMessage "Product not found")
       | Some _ =>
           match existing_image product with
           | Some img =>
               let imagePath := Path.join (__dirname E) img in
               Fs.unlink E imagePath (log_if_error "Error deleting image:")
           | None => ret tt
           end ;;;
           findByIdAndDelete E (params_id req) ;;;
           res_status_json 200 (JMessage "Product deleted successfully")
       end)
  catch (internal_server_error "Error deleting product:").

(** The routes with [upload.single("image")] in front. *)
Definition post_products (req : request) : M response :=
  req_file <- Multer.single E req ;;
  post_products_handler req req_file.

Definition put_products_id (req : request) : M response :=
  req_file <- Multer.single E req ;;
  put_products_id_handler req req_file.

End Routes.
End V2.

(** The [_id] index: no two documents of the collection share an id. *)
Definition unique_ids (w : world) : Prop := NoDup (map _id (db w)).

(** A property of the world that a computation keeps, however it ends. *)
Definition preserves {A} (I : world -> Prop) (m : M A) : Prop :=
  forall w w' r, m w = (w', r) -> I w -> I w'.

(** * A concrete scene for the examples *)
Module Scene.

Definition quiet (dir : string) (t : N) (id : oid) : env :=
  {| now := t; new_oid := id; __dirname := dir; cwd := dir;
     db_fault := fun _ => None; unlink_fault := fun _ => None |}.

Definition E1 : env := quiet "/srv/app" 1700000000000 "65a0c0ffee0000000000a001".
Definition E2 : env := quiet "/srv/app" 1700000000555 "65a0c0ffee0000000000a002".

Definition form (id : oid) (n : option string) (file : option file_part) : request :=
  {| protocol := "http"; host := "localhost:3000"; params_id := id;
     body_name := n; body_price := Some (3 # 2)%Q;
     body_description := Some "Blue ink"; file_image := file |}.

Definition pen : product :=
  {| _id := "65a0c0ffee0000000000a001"; name := "Pen"; price := (3 # 2)%Q;
     description := "Blue ink"; image := None |}.

Definition brush : product :=
  {| _id := "65a0c0ffee0000000000a001"; name := "Brush"; price := (9 # 1)%Q;
     description := "Flat, size 8";
     image := Some "/uploads/1700000000000-brush.png" |}.

Definition empty : world := {| db := []; files := ∅; console := [] |}.

(** One product whose picture is on disk. *)
Definition shop : world :=
  {| db := [brush];
     files := {["/srv/app/uploads/1700000000000-brush.png"]};
     console := [] |}.

(** The same product after the picture was lost. *)
Definition shop_without_picture : world :=
  {| db := [brush]; files := ∅; console := [] |}.

End Scene.

(** * What the specification says of listing and of deleting

    Stated over a route, so that each variant can be measured against it. *)

(** A listed record shows a stored one with its image rewritten: the
    absolute URL (scheme, host, stored relative path) when the stored record
    has an image, null when it has none. *)
Definition shown_with_absolute_image (req : request) (stored shown : product) : Prop :=
  _id shown = _id stored
  /\ name shown = name stored
  /\ price shown = price stored
  /\ description shown = description stored
  /\ match image stored with
     | Some img =>
         if String.eqb img "" then image shown = None
         else image shown = Some (protocol req +:+ "://" +:+ host req +:+ img)
     | None => image shown = None
     end.

(** Every successful listing shows each stored record that way, and leaves
    the stored records alone. *)
Definition lists_absolute_images (get : env -> request -> M response) : Prop :=
  forall E req w w' ps,
    get E req w = (w', inr {| status := 200; body := JProducts ps |}) ->
    Forall2 (shown_with_absolute_image req) (db w) ps /\ db w' = db w.

(** Deleting a record that has an image takes the image file with it when
    the file is there and the system lets it go. *)
Definition delete_takes_image_file (del : env -> request -> M response) : Prop :=
  forall E req w p img,
    db_fault E (FindById (params_id req)) = None ->
    db_fault E (FindByIdAndDelete (params_id req)) = None ->
    lookup (params_id req) (db w) = Some p ->
    existing_image (Some p) = Some img ->
    Fs.unlink_error E (Path.join (__dirname E) img) w = None ->
    exists w',
      del E req w
        = (w', inr {| status := 200; body := JMessage "Product deleted successfully" |})
      /\ Fs.locate E (Path.join (__dirname E) img) ∉ files w'.

(** * More of the scene: a database that rejects every call *)
Module Outage.

Definition E : env :=
  {| now := 1700000000999; new_oid := "65a0c0ffee0000000000a003";
     __dirname := "/srv/app"; cwd := "/srv/app";
     db_fault := fun _ => Some (MongoError "connection refused");
     unlink_fault := fun _ => None |}.

(** The database answers lookups but rejects the removal. *)
Definition E_delete_rejected : env :=
  {| now := 1700000000999; new_oid := "65a0c0ffee0000000000a003";
     __dirname := "/srv/app"; cwd := "/srv/app";
     db_fault := fun c => match c with
                          | FindByIdAndDelete _ => Some (MongoError "not primary")
                          | _ => None
                          end;
     unlink_fault := fun _ => None |}.

End Outage.

(** * Shapes of stored data *)

(** An image value as the routes store it: null, or a path under the
    upload prefix. *)
Definition under_uploads (img : option string) : Prop :=
  match img with
  | Some path => exists file, path = "/uploads/" +:+ file
  | None => True
  end.

Definition relative_images (w : world) : Prop :=
  Forall (fun p => under_uploads (image p)) (db w).

(** No character of [s] is [c]. *)
Fixpoint free_of (c : ascii) (s : string) : bool :=
  match s with
  | EmptyString => true
  | String a rest => negb (Ascii.eqb a c) && free_of c rest
  end.

(** A path segment that [normalize] keeps as it is: no separator in it, and
    neither empty nor a dot segment. *)
Definition clean_segment (seg : string) : Prop :=
  Path.split seg = [seg] /\ seg <> "" /\ seg <> "." /\ seg <> "..".

(** * Facts about the collection *)

Section Collection.
Implicit Types (d : list product) (p q : product) (id : oid).

Lemma has_id_true id p : has_id id p = true <-> _id p = id.
Proof.
  unfold has_id. rewrite String.eqb_eq. split; intros H; symmetry; exact H.
Qed.

Lemma has_id_false id p : has_id id p = false <-> _id p <> id.
Proof.
  unfold has_id. rewrite String.eqb_neq. split; intros H Heq; apply H; symmetry; exact Heq.
Qed.

Lemma lookup_Some id d p : lookup id d = Some p -> _id p = id /\ p ∈ d.
Proof.
  unfold lookup. intros H. apply find_some in H as [Hin Hid].
  split; [apply has_id_true; exact Hid | apply list_elem_of_In; exact Hin].
Qed.

Lemma lookup_None id d : lookup id d = None <-> forall p, p ∈ d -> _id p <> id.
Proof.
  unfold lookup. split.
  - intros H p Hp. apply has_id_false.
    apply (find_none _ _ H). apply list_elem_of_In. exact Hp.
  - induction d as [|q d IH]; intros H; simpl; [reflexivity|].
    destruct (has_id id q) eqn:Hq.
    + apply has_id_true in Hq. exfalso. apply (H q); [left | exact Hq].
    + apply IH. intros p Hp. apply H. right. exact Hp.
Qed.

Lemma merge_id u p : _id (merge u p) = _id p.
Proof. reflexivity. Qed.

Lemma update_first_ids id f d :
  (forall p, _id (f p) = _id p) ->
  map _id (update_first id f d) = map _id d.
Proof.
  intros Hf. induction d as [|q d IH]; simpl; [reflexivity|].
  destruct (has_id id q); simpl; [rewrite Hf | rewrite IH]; reflexivity.
Qed.

Lemma lookup_update_first id f d p :
  (forall q, _id (f q) = _id q) ->
  lookup id d = Some p -> lookup id (update_first id f d) = Some (f p).
Proof.
  intros Hf. unfold lookup. induction d as [|q d IH]; simpl; [discriminate|].
  destruct (has_id id q) eqn:Hq; simpl.
  - intros [= ->]. unfold has_id in *. rewrite Hf, Hq. reflexivity.
  - rewrite Hq. exact IH.
Qed.

Lemma lookup_update_first_ne id id' f d :
  (forall q, _id (f q) = _id q) ->
  id' <> id -> lookup id' (update_first id f d) = lookup id' d.
Proof.
  intros Hf Hne. unfold lookup. induction d as [|q d IH]; simpl; [reflexivity|].
  destruct (has_id id q) eqn:Hq; simpl.
  - apply has_id_true in Hq.
    assert (has_id id' q = false) as Hq' by (apply has_id_false; congruence).
    assert (has_id id' (f q) = false) as Hfq by (apply has_id_false; rewrite Hf; congruence).
    rewrite Hq', Hfq. reflexivity.
  - destruct (has_id id' q); [reflexivity | exact IH].
Qed.

Lemma elem_of_delete_first id d q :
  NoDup (map _id d) ->
  q ∈ delete_first id d <-> q ∈ d /\ _id q <> id.
Proof.
  induction d as [|p d IH]; simpl; intros Hnd.
  - split; [intros H | intros [H _]]; inversion H.
  - apply NoDup_cons in Hnd as [Hp Hnd].
    destruct (has_id id p) eqn:Hid.
    + apply has_id_true in Hid. split.
      * intros Hq. split; [right; exact Hq|].
        intros Heq. apply Hp. rewrite Hid, <- Heq.
        apply list_elem_of_fmap. exists q. split; [reflexivity | exact Hq].
      * intros [Hq Hne]. apply elem_of_cons in Hq as [-> | Hq]; [congruence | exact Hq].
    + apply has_id_false in Hid. rewrite elem_of_cons, IH by exact Hnd.
      rewrite elem_of_cons. split.
      * intros [-> | [Hq Hne]]; [split; [left; reflexivity | exact Hid] | split; [right; exact Hq | exact Hne]].
      * intros [[-> | Hq] Hne]; [left; reflexivity | right; split; assumption].
Qed.

Lemma lookup_delete_first id d :
  NoDup (map _id d) -> lookup id (delete_first id d) = None.
Proof.
  intros Hnd. apply lookup_None. intros p Hp.
  apply elem_of_delete_first in Hp as [_ Hne]; assumption.
Qed.

Lemma delete_first_sublist id d : sublist (delete_first id d) d.
Proof.
  induction d as [|p d IH]; simpl; [constructor|].
  destruct (has_id id p); [apply sublist_cons | apply sublist_skip]; [reflexivity | exact IH].
Qed.

End Collection.

(** * The routes, claim by claim *)

Ltac run :=
  unfold V1.put_products_id, V2.put_products_id, V1.post_products, V2.post_products,
    V1.put_products_id_handler, V2.put_products_id_handler,
    V1.post_products_handler, V2.post_products_handler,
    V1.delete_products_id, V2.delete_products_id,
    V1.get_products, V2.get_products, V2.internal_server_error, V1.fs_unlink,
    Multer.single, Fs.write_file, Fs.unlink, log_if_error,
    save, find, findById, findByIdAndUpdate, findByIdAndDelete, call,
    res_status_json, try_catch, bind, ret, throw, get_world, modify_world.

(** C5.  A DELETE on an id that no document has answers 404 with
    [{message: "Product not found"}] in both variants, and leaves the
    collection (and everything else) as it was. *)
Theorem delete_unknown_id_is_404 (E : env) (req : request) (w : world) :
  db_fault E (FindById (params_id req)) = None ->
  db_fault E (FindByIdAndDelete (params_id req)) = None ->
  lookup (params_id req) (db w) = None ->
  V1.delete_products_id E req w
    = (w, inr {| status := 404; body := JMessage "Product not found" |})
  /\ V2.delete_products_id E req w
    = (w, inr {| status := 404; body := JMessage "Product not found" |}).
Proof.
  intros Hfind Hdel Hnone. split; run; simpl.
  - rewrite Hdel. simpl. rewrite Hnone. reflexivity.
  - rewrite Hfind. simpl. rewrite Hnone. reflexivity.
Qed.

Lemma delete_unknown_id_is_404_witness :
  V1.delete_products_id Scene.E1 (Scene.form "65a0c0ffee0000000000beef" None None) Scene.shop
    = (Scene.shop, inr {| status := 404; body := JMessage "Product not found" |})
  /\ V2.delete_products_id Scene.E1 (Scene.form "65a0c0ffee0000000000beef" None None) Scene.shop
    = (Scene.shop, inr {| status := 404; body := JMessage "Product not found" |}).
Proof.
  apply (delete_unknown_id_is_404 Scene.E1
           (Scene.form "65a0c0ffee0000000000beef" None None) Scene.shop);
    reflexivity.
Defined.

(** C4.  A PUT on an id that no document has answers 404 in both variants,
    with or without a file, and the collection is what it was: nothing is
    created. *)
Theorem put_unknown_id_is_404 (E : env) (req : request) (w : world) :
  db_fault E (FindById (params_id req)) = None ->
  db_fault E (FindByIdAndUpdate (params_id req)) = None ->
  lookup (params_id req) (db w) = None ->
  exists w1 w2,
    V1.put_products_id E req w
      = (w1, inr {| status := 404; body := JMessage "Product not found" |})
    /\ db w1 = db w
    /\ V2.put_products_id E req w
      = (w2, inr {| status := 404; body := JMessage "Product not found" |})
    /\ db w2 = db w.
Proof.
  intros Hfind Hupd Hnone. run.
  destruct (file_image req) as [file|]; simpl;
    rewrite ?Hfind, ?Hupd; simpl; rewrite ?Hnone; simpl; rewrite ?Hupd; simpl;
    rewrite ?Hnone; eexists _, _; repeat split; reflexivity.
Qed.

Lemma put_unknown_id_is_404_witness :
  exists w1 w2,
    V1.put_products_id Scene.E2
        (Scene.form "65a0c0ffee0000000000beef" (Some "Easel") None) Scene.shop
      = (w1, inr {| status := 404; body := JMessage "Product not found" |})
    /\ db w1 = db Scene.shop
    /\ V2.put_products_id Scene.E2
        (Scene.form "65a0c0ffee0000000000beef" (Some "Easel") None) Scene.shop
      = (w2, inr {| status := 404; body := JMessage "Product not found" |})
    /\ db w2 = db Scene.shop.
Proof.
  apply (put_unknown_id_is_404 Scene.E2
           (Scene.form "65a0c0ffee0000000000beef" (Some "Easel") None) Scene.shop);
    reflexivity.
Defined.

(** C10.  A PUT that carries a file for an id that no document has answers
    404 in both variants, and yet the upload is on disk afterwards: the
    middleware wrote it before the route ran, the route removes no file, and
    no document of the collection was changed to point at it. *)
Theorem put_unknown_id_leaves_upload (E : env) (req : request) (file : file_part) (w : world) :
  file_image req = Some file ->
  db_fault E (FindById (params_id req)) = None ->
  db_fault E (FindByIdAndUpdate (params_id req)) = None ->
  lookup (params_id req) (db w) = None ->
  let stored :=
    Fs.locate E (Path.join "uploads/" (Multer.decimal (now E) +:+ "-" +:+ originalname file)) in
  exists w',
    V1.put_products_id E req w
      = (w', inr {| status := 404; body := JMessage "Product not found" |})
    /\ V2.put_products_id E req w
      = (w', inr {| status := 404; body := JMessage "Product not found" |})
    /\ stored ∈ files w'
    /\ files w ⊆ files w'
    /\ db w' = db w
    /\ console w' = console w.
Proof.
  intros Hfile Hfind Hupd Hnone stored. run. rewrite Hfile. simpl.
  rewrite Hfind. simpl. rewrite Hnone. simpl. rewrite Hupd. simpl. rewrite Hnone.
  eexists. repeat split; simpl; set_solver.
Qed.

Lemma put_unknown_id_leaves_upload_witness :
  exists w',
    V1.put_products_id Scene.E2
        (Scene.form "65a0c0ffee0000000000beef" None (Some {| originalname := "easel.png" |}))
        Scene.shop
      = (w', inr {| status := 404; body := JMessage "Product not found" |})
    /\ V2.put_products_id Scene.E2
        (Scene.form "65a0c0ffee0000000000beef" None (Some {| originalname := "easel.png" |}))
        Scene.shop
      = (w', inr {| status := 404; body := JMessage "Product not found" |})
    /\ Fs.locate Scene.E2
         (Path.join "uploads/" (Multer.decimal (now Scene.E2) +:+ "-" +:+ "easel.png"))
       ∈ files w'
    /\ files Scene.shop ⊆ files w'
    /\ db w' = db Scene.shop
    /\ console w' = console Scene.shop.
Proof.
  apply (put_unknown_id_leaves_upload Scene.E2
           (Scene.form "65a0c0ffee0000000000beef" None (Some {| originalname := "easel.png" |}))
           {| originalname := "easel.png" |} Scene.shop);
    reflexivity.
Defined.

(** C6.  A POST with a name, a price and a description that pass the
    schema, and no file, answers 200 in both variants with the created
    document, whose image is null; the document is appended to the
    collection. *)
Theorem post_without_file_has_null_image
    (E : env) (req : request) (w : world) (n d : string) (q : number) :
  body_name req = Some n -> n <> "" ->
  body_price req = Some q ->
  body_description req = Some d -> d <> "" ->
  file_image req = None ->
  db_fault E Save = None ->
  lookup (new_oid E) (db w) = None ->
  let created :=
    {| _id := new_oid E; name := n; price := q; description := d; image := None |} in
  V1.post_products E req w
    = (with_db (db w ++ [created]) w, inr {| status := 200; body := JProduct created |})
  /\ V2.post_products E req w
    = (with_db (db w ++ [created]) w, inr {| status := 200; body := JProduct created |}).
Proof.
  intros Hn Hn0 Hq Hd Hd0 Hfile Hsave Hfresh created. run.
  rewrite Hfile. simpl. unfold validate. simpl. rewrite Hn, Hq, Hd. simpl.
  apply String.eqb_neq in Hn0, Hd0. rewrite Hn0, Hd0. simpl.
  rewrite Hsave. simpl. rewrite Hfresh. split; reflexivity.
Qed.

Lemma post_without_file_has_null_image_witness :
  V1.post_products Scene.E1 (Scene.form "" (Some "Pen") None) Scene.empty
    = (with_db [Scene.pen] Scene.empty, inr {| status := 200; body := JProduct Scene.pen |})
  /\ V2.post_products Scene.E1 (Scene.form "" (Some "Pen") None) Scene.empty
    = (with_db [Scene.pen] Scene.empty, inr {| status := 200; body := JProduct Scene.pen |}).
Proof.
  apply (post_without_file_has_null_image Scene.E1 (Scene.form "" (Some "Pen") None)
           Scene.empty "Pen" "Blue ink" (3 # 2)%Q);
    solve [reflexivity | discriminate].
Defined.

(** ** Path segments of a generated file name *)

Lemma split_app_single (a b : string) :
  Path.split a = [a] -> Path.split b = [b] -> Path.split (a +:+ b) = [a +:+ b].
Proof.
  intros Ha Hb. induction a as [|c r IH]; simpl in *; [exact Hb|].
  destruct (Ascii.eqb c Path.sep); [discriminate|].
  destruct (Path.split r) as [|seg segs] eqn:Hr.
  - injection Ha as <-. simpl in Hr. discriminate.
  - injection Ha as -> ->. rewrite IH; reflexivity.
Qed.

Lemma split_digits (u : Decimal.uint) :
  Path.split (NilEmpty.string_of_uint u) = [NilEmpty.string_of_uint u].
Proof.
  induction u; simpl; try rewrite IHu; reflexivity.
Qed.

Lemma split_decimal (n : N) : Path.split (Multer.decimal n) = [Multer.decimal n].
Proof.
  unfold Multer.decimal, NilZero.string_of_uint.
  destruct (N.to_uint n) eqn:Hu; try reflexivity; rewrite <- Hu at 2; rewrite <- Hu;
    apply split_digits.
Qed.

Lemma basename_under_uploads (seg : string) :
  Path.split seg = [seg] -> Path.basename ("/uploads/" +:+ seg) = seg.
Proof.
  intros Hseg. unfold Path.basename. cbv [String.append]. simpl.
  rewrite Hseg. reflexivity.
Qed.

(** C7.  A POST that carries a file (and fields that pass the schema)
    creates, in both variants, a document whose image is the relative path
    [/uploads/<timestamp>-<original-filename>]: it begins with the upload
    prefix, the file multer stored under the generated name is on disk, and
    when the original name is a single path segment (multer hands over the
    base name of what the client sent) the last segment of the image path is
    the generated name. *)
Theorem post_with_file_image_path
    (E : env) (req : request) (file : file_part) (w : world) (n d : string) (q : number) :
  body_name req = Some n -> n <> "" ->
  body_price req = Some q ->
  body_description req = Some d -> d <> "" ->
  file_image req = Some file ->
  db_fault E Save = None ->
  lookup (new_oid E) (db w) = None ->
  let generated := Multer.decimal (now E) +:+ "-" +:+ originalname file in
  exists w' created img,
    V1.post_products E req w = (w', inr {| status := 200; body := JProduct created |})
    /\ V2.post_products E req w = (w', inr {| status := 200; body := JProduct created |})
    /\ db w' = (db w ++ [created])%list
    /\ name created = n /\ price created = q /\ description created = d
    /\ image created = Some img
    /\ img = "/uploads/" +:+ generated
    /\ Fs.locate E (Path.join "uploads/" generated) ∈ files w'
    /\ (Path.split (originalname file) = [originalname file] ->
        Path.basename img = generated).
Proof.
  intros Hn Hn0 Hq Hd Hd0 Hfile Hsave Hfresh generated. run.
  rewrite Hfile. simpl. unfold validate. simpl. rewrite Hn, Hq, Hd. simpl.
  apply String.eqb_neq in Hn0, Hd0. rewrite Hn0, Hd0. simpl.
  rewrite Hsave. simpl. rewrite Hfresh. simpl.
  eexists _, _, _. repeat split; try reflexivity.
  - apply elem_of_union_l, elem_of_singleton. reflexivity.
  - intros Hone. apply basename_under_uploads.
    apply split_app_single; [apply split_decimal|].
    apply (split_app_single "-"); [reflexivity | exact Hone].
Qed.

Lemma post_with_file_image_path_witness :
  exists w' created img,
    V1.post_products Scene.E1
        (Scene.form "" (Some "Brush") (Some {| originalname := "brush.png" |})) Scene.empty
      = (w', inr {| status := 200; body := JProduct created |})
    /\ V2.post_products Scene.E1
        (Scene.form "" (Some "Brush") (Some {| originalname := "brush.png" |})) Scene.empty
      = (w', inr {| status := 200; body := JProduct created |})
    /\ db w' = (db Scene.empty ++ [created])%list
    /\ name created = "Brush" /\ price created = (3 # 2)%Q
    /\ description created = "Blue ink"
    /\ image created = Some img
    /\ img = "/uploads/" +:+ "1700000000000-brush.png"
    /\ Fs.locate Scene.E1 (Path.join "uploads/" "1700000000000-brush.png") ∈ files w'
    /\ (Path.split "brush.png" = ["brush.png"] ->
        Path.basename img = "1700000000000-brush.png").
Proof.
  apply (post_with_file_image_path Scene.E1
           (Scene.form "" (Some "Brush") (Some {| originalname := "brush.png" |}))
           {| originalname := "brush.png" |} Scene.empty "Brush" "Blue ink" (3 # 2)%Q);
    solve [reflexivity | discriminate].
Defined.

(** C8.  A PUT with no file on an id the collection holds merges, in both
    variants, the fields the request carries (name, price, description)
    into that document and keeps its image; the other documents, the files
    and the console are as before.  It answers 200 with the merged document
    (variant 2 shows its image as an absolute URL). *)
Theorem put_without_file_keeps_image
    (E : env) (req : request) (w : world) (p : product) :
  file_image req = None ->
  db_fault E (FindByIdAndUpdate (params_id req)) = None ->
  lookup (params_id req) (db w) = Some p ->
  let merged :=
    {| _id := _id p;
       name := match body_name req with Some n => n | None => name p end;
       price := match body_price req with Some q => q | None => price p end;
       description :=
         match body_description req with Some d => d | None => description p end;
       image := image p |} in
  exists w',
    V1.put_products_id E req w
      = (w', inr {| status := 200; body := JProduct merged |})
    /\ V2.put_products_id E req w
      = (w', inr {| status := 200; body := JProduct (V2.with_absolute_url req merged) |})
    /\ lookup (params_id req) (db w') = Some merged
    /\ (forall id, id <> params_id req -> lookup id (db w') = lookup id (db w))
    /\ map _id (db w') = map _id (db w)
    /\ files w' = files w
    /\ console w' = console w.
Proof.
  intros Hfile Hupd Hp merged. run. rewrite Hfile. simpl.
  rewrite Hupd. simpl. rewrite Hp. simpl.
  assert (merge (updatedData req) p = merged) as Hm.
  { unfold merge, updatedData, merged. simpl.
    destruct (body_name req), (body_price req), (body_description req); reflexivity. }
  rewrite Hm. eexists. repeat split; simpl.
  - rewrite (lookup_update_first _ _ _ p (merge_id _) Hp). rewrite Hm. reflexivity.
  - intros id Hne. apply lookup_update_first_ne; [apply merge_id | exact Hne].
  - apply update_first_ids, merge_id.
Qed.

Lemma put_without_file_keeps_image_witness :
  exists w',
    V1.put_products_id Scene.E2
        (Scene.form "65a0c0ffee0000000000a001" None None) Scene.shop
      = (w', inr {| status := 200;
                    body := JProduct
                      {| _id := "65a0c0ffee0000000000a001"; name := "Brush";
                         price := (3 # 2)%Q; description := "Blue ink";
                         image := Some "/uploads/1700000000000-brush.png" |} |})
    /\ V2.put_products_id Scene.E2
        (Scene.form "65a0c0ffee0000000000a001" None None) Scene.shop
      = (w', inr {| status := 200;
                    body := JProduct
                      {| _id := "65a0c0ffee0000000000a001"; name := "Brush";
                         price := (3 # 2)%Q; description := "Blue ink";
                         image := Some "http://localhost:3000/uploads/1700000000000-brush.png" |} |})
    /\ lookup "65a0c0ffee0000000000a001" (db w')
       = Some {| _id := "65a0c0ffee0000000000a001"; name := "Brush";
                 price := (3 # 2)%Q; description := "Blue ink";
                 image := Some "/uploads/1700000000000-brush.png" |}
    /\ (forall id, id <> "65a0c0ffee0000000000a001" ->
        lookup id (db w') = lookup id (db Scene.shop))
    /\ map _id (db w') = map _id (db Scene.shop)
    /\ files w' = files Scene.shop
    /\ console w' = console Scene.shop.
Proof.
  apply (put_without_file_keeps_image Scene.E2
           (Scene.form "65a0c0ffee0000000000a001" None None) Scene.shop Scene.brush);
    reflexivity.
Defined.

(** ** Listing *)

Lemma shown_with_absolute_url (req : request) (p : product) :
  shown_with_absolute_image req p (V2.with_absolute_url req p).
Proof.
  unfold shown_with_absolute_image, V2.with_absolute_url, existing_image. simpl.
  repeat split. destruct (image p) as [img|]; [|reflexivity].
  destruct (String.eqb img ""); reflexivity.
Qed.

Lemma string_length_append (a b : string) :
  String.length (a +:+ b) = String.length a + String.length b.
Proof.
  induction a as [|c a IH]; simpl; [reflexivity | rewrite IH; reflexivity].
Qed.

(** Rewriting changes every image but null. *)
Lemma with_absolute_url_fixed (req : request) (p : product) :
  V2.with_absolute_url req p = p <-> image p = None.
Proof.
  destruct p as [i n q d [img|]]; unfold V2.with_absolute_url, existing_image; simpl.
  - split; [|discriminate]. destruct (String.eqb img "") eqn:Himg; [discriminate|].
    intros [= Heq]. apply (f_equal String.length) in Heq.
    rewrite !string_length_append in Heq. simpl in Heq. lia.
  - split; reflexivity.
Qed.

Lemma map_with_absolute_url_fixed (req : request) (d : list product) :
  map (V2.with_absolute_url req) d = d <-> Forall (fun p => image p = None) d.
Proof.
  induction d as [|p d IH]; simpl.
  - split; [constructor | reflexivity].
  - rewrite Forall_cons, <- IH, <- (with_absolute_url_fixed req). split.
    + intros [= Hp Hd]. split; assumption.
    + intros [-> ->]. reflexivity.
Qed.

(** C1, as stated, fails on variant 1: its listing hands out the stored
    relative path, not an absolute URL. *)
Lemma v1_get_products_keeps_relative_image :
  V1.get_products Scene.E2 (Scene.form "" None None) Scene.shop
    = (Scene.shop, inr {| status := 200; body := JProducts [Scene.brush] |})
  /\ image Scene.brush = Some "/uploads/1700000000000-brush.png"
  /\ ~ lists_absolute_images V1.get_products.
Proof.
  split; [reflexivity|]. split; [reflexivity|]. intros Hclaim.
  destruct (Hclaim Scene.E2 (Scene.form "" None None) Scene.shop Scene.shop
              [Scene.brush] eq_refl) as [Hshown _].
  apply Forall2_cons_1 in Hshown as [(_ & _ & _ & _ & Himg) _].
  simpl in Himg. discriminate.
Qed.

(** C1, amended.  Variant 2 answers a GET whose fetch succeeds with 200 and
    each stored record shown with its image rewritten: scheme, ["://"], host
    and the stored relative path when the stored image is a non-empty
    string, null otherwise.  Variant 1 answers 200 with the stored records
    as they are.  Neither changes what is stored. *)
Theorem get_products_images (E : env) (req : request) (w : world) :
  db_fault E Find = None ->
  (exists ps,
     V2.get_products E req w = (w, inr {| status := 200; body := JProducts ps |})
     /\ Forall2 (shown_with_absolute_image req) (db w) ps)
  /\ V1.get_products E req w
     = (w, inr {| status := 200; body := JProducts (db w) |}).
Proof.
  intros Hfind. run. rewrite Hfind. simpl. split; [|reflexivity].
  eexists. split; [reflexivity|].
  induction (db w) as [|p d IH]; simpl; constructor;
    [apply shown_with_absolute_url | exact IH].
Qed.

Lemma get_products_images_witness :
  (exists ps,
     V2.get_products Scene.E2 (Scene.form "" None None) Scene.shop
       = (Scene.shop, inr {| status := 200; body := JProducts ps |})
     /\ Forall2 (shown_with_absolute_image (Scene.form "" None None)) (db Scene.shop) ps)
  /\ V1.get_products Scene.E2 (Scene.form "" None None) Scene.shop
     = (Scene.shop, inr {| status := 200; body := JProducts (db Scene.shop) |}).
Proof.
  apply (get_products_images Scene.E2 (Scene.form "" None None) Scene.shop).
  reflexivity.
Defined.

(** C9, as stated, fails: over a collection with one product that has an
    image the two variants answer the same GET with different bodies. *)
Lemma get_products_variants_differ :
  snd (V1.get_products Scene.E2 (Scene.form "" None None) Scene.shop)
    = inr {| status := 200; body := JProducts [Scene.brush] |}
  /\ snd (V2.get_products Scene.E2 (Scene.form "" None None) Scene.shop)
    = inr {| status := 200;
             body := JProducts
               [{| _id := "65a0c0ffee0000000000a001"; name := "Brush";
                   price := (9 # 1)%Q; description := "Flat, size 8";
                   image := Some "http://localhost:3000/uploads/1700000000000-brush.png" |}] |}
  /\ snd (V1.get_products Scene.E2 (Scene.form "" None None) Scene.shop)
     <> snd (V2.get_products Scene.E2 (Scene.form "" None None) Scene.shop).
Proof.
  split; [reflexivity|]. split; [reflexivity|]. discriminate.
Qed.

(** C9, amended.  Over the same stored records the two variants answer a
    GET with the same status and leave the records alone; when the fetch
    succeeds, the body of variant 2 is the body of variant 1 with every
    image rewritten, so the two responses are equal exactly when every
    stored image is null. *)
Theorem get_products_variants_agree (E : env) (req : request) (w : world) :
  exists r1 r2 w2,
    V1.get_products E req w = (w, inr r1)
    /\ V2.get_products E req w = (w2, inr r2)
    /\ status r1 = status r2
    /\ db w2 = db w
    /\ files w2 = files w
    /\ (db_fault E Find = None ->
        w2 = w
        /\ r1 = {| status := 200; body := JProducts (db w) |}
        /\ r2 = {| status := 200;
                   body := JProducts (map (V2.with_absolute_url req) (db w)) |}
        /\ (r1 = r2 <-> Forall (fun p => image p = None) (db w))).
Proof.
  run. destruct (db_fault E Find) as [e|]; simpl.
  - eexists _, _, _. do 5 (split; [reflexivity|]). discriminate.
  - eexists _, _, _. do 5 (split; [reflexivity|]). intros _.
    do 3 (split; [reflexivity|]). split.
    + intros [= Heq]. apply (map_with_absolute_url_fixed req). symmetry. exact Heq.
    + intros Hall. apply (map_with_absolute_url_fixed req) in Hall.
      rewrite Hall. reflexivity.
Qed.

Lemma get_products_variants_agree_witness :
  exists r1 r2 w2,
    V1.get_products Scene.E2 (Scene.form "" None None) (with_db [Scene.pen] Scene.empty)
      = (with_db [Scene.pen] Scene.empty, inr r1)
    /\ V2.get_products Scene.E2 (Scene.form "" None None) (with_db [Scene.pen] Scene.empty)
      = (w2, inr r2)
    /\ status r1 = status r2
    /\ r1 = r2.
Proof.
  destruct (get_products_variants_agree Scene.E2 (Scene.form "" None None)
              (with_db [Scene.pen] Scene.empty))
    as (r1 & r2 & w2 & H1 & H2 & Hst & _ & _ & Hok).
  destruct (Hok eq_refl) as (_ & _ & _ & Heq).
  exists r1, r2, w2. repeat split; try assumption.
  apply Heq. repeat constructor.
Defined.

(** ** Deleting *)

#[local] Arguments existing_image : simpl never.
#[local] Arguments Fs.unlink_error : simpl never.
#[local] Arguments Fs.locate : simpl never.
#[local] Arguments Path.join : simpl never.

(** C2, as stated, fails on variant 1: it deletes the record of a product
    whose image file is on disk and deletable, answers 200, and the file is
    still there; variant 2 on the same input takes the file away. *)
Lemma v1_delete_leaves_image_file :
  V1.delete_products_id Scene.E2 (Scene.form "65a0c0ffee0000000000a001" None None) Scene.shop
    = (with_db [] Scene.shop,
       inr {| status := 200; body := JMessage "Product deleted successfully" |})
  /\ files (with_db [] Scene.shop) = {["/srv/app/uploads/1700000000000-brush.png"]}
  /\ files (fst (V2.delete_products_id Scene.E2
                   (Scene.form "65a0c0ffee0000000000a001" None None) Scene.shop)) = ∅
  /\ ~ delete_takes_image_file V1.delete_products_id.
Proof.
  split; [reflexivity|]. split; [reflexivity|]. split; [vm_compute; reflexivity|].
  intros Hclaim.
  destruct (Hclaim Scene.E2 (Scene.form "65a0c0ffee0000000000a001" None None)
              Scene.shop Scene.brush "/uploads/1700000000000-brush.png"
              eq_refl eq_refl eq_refl eq_refl) as (w' & Hrun & Hgone).
  - vm_compute. reflexivity.
  - injection Hrun as <-. apply Hgone. vm_compute. set_solver.
Qed.

(** C2, amended.  A DELETE on an id the collection holds removes the
    document in both variants (no document has the id afterwards, the
    others stay, and a following listing does not show it) and answers 200
    with the confirmation.  Variant 2 also calls [unlink] on the image file
    of a document whose image is a non-empty string: the file goes, or the
    error is written to the console.  Variant 1 leaves files and console
    alone. *)
Theorem delete_existing_id (E : env) (req : request) (w : world) (p : product) :
  db_fault E (FindById (params_id req)) = None ->
  db_fault E (FindByIdAndDelete (params_id req)) = None ->
  db_fault E Find = None ->
  unique_ids w ->
  lookup (params_id req) (db w) = Some p ->
  exists w1 w2,
    V1.delete_products_id E req w
      = (w1, inr {| status := 200; body := JMessage "Product deleted successfully" |})
    /\ V2.delete_products_id E req w
      = (w2, inr {| status := 200; body := JMessage "Product deleted successfully" |})
    /\ db w1 = db w2
    /\ lookup (params_id req) (db w2) = None
    /\ (forall q, q ∈ db w2 <-> q ∈ db w /\ _id q <> params_id req)
    /\ (forall req', exists ps1 ps2,
          V1.get_products E req' w1 = (w1, inr {| status := 200; body := JProducts ps1 |})
          /\ V2.get_products E req' w2 = (w2, inr {| status := 200; body := JProducts ps2 |})
          /\ (forall r, r ∈ ps1 -> _id r <> params_id req)
          /\ (forall r, r ∈ ps2 -> _id r <> params_id req))
    /\ files w1 = files w /\ console w1 = console w
    /\ match existing_image (Some p) with
       | Some img =>
           match Fs.unlink_error E (Path.join (__dirname E) img) w with
           | None =>
               files w2 = files w ∖ {[Fs.locate E (Path.join (__dirname E) img)]}
               /\ console w2 = console w
           | Some err =>
               files w2 = files w
               /\ console w2 = (console w ++ [("Error deleting image:", err)])%list
           end
       | None => files w2 = files w /\ console w2 = console w
       end.
Proof.
  intros Hfind Hdel Hlist Huniq Hp.
  assert (forall q, q ∈ delete_first (params_id req) (db w)
                    <-> q ∈ db w /\ _id q <> params_id req) as Hmem
    by (intros q; apply elem_of_delete_first, Huniq).
  assert (exists w2,
    V2.delete_products_id E req w
      = (w2, inr {| status := 200; body := JMessage "Product deleted successfully" |})
    /\ db w2 = delete_first (params_id req) (db w)
    /\ match existing_image (Some p) with
       | Some img =>
           match Fs.unlink_error E (Path.join (__dirname E) img) w with
           | None =>
               files w2 = files w ∖ {[Fs.locate E (Path.join (__dirname E) img)]}
               /\ console w2 = console w
           | Some err =>
               files w2 = files w
               /\ console w2 = (console w ++ [("Error deleting image:", err)])%list
           end
       | None => files w2 = files w /\ console w2 = console w
       end) as (w2 & Hrun2 & Hdb2 & Hfs2).
  { run. rewrite Hfind. simpl. rewrite Hp.
    destruct (existing_image (Some p)) as [img|]; simpl.
    - destruct (Fs.unlink_error E (Path.join (__dirname E) img) w) as [err|]; simpl;
        rewrite Hdel; simpl; rewrite Hp; simpl; eexists; repeat split; reflexivity.
    - rewrite Hdel. simpl. rewrite Hp. simpl. eexists. repeat split; reflexivity. }
  exists (with_db (delete_first (params_id req) (db w)) w), w2.
  split. { run. rewrite Hdel. simpl. rewrite Hp. reflexivity. }
  split; [exact Hrun2|]. split; [symmetry; exact Hdb2|].
  split. { rewrite Hdb2. apply lookup_delete_first, Huniq. }
  split. { intros q. rewrite Hdb2. apply Hmem. }
  split.
  { intros req'. exists (delete_first (params_id req) (db w)),
      (map (V2.with_absolute_url req') (delete_first (params_id req) (db w))).
    split. { run. rewrite Hlist. reflexivity. }
    split. { run. rewrite Hlist. simpl. rewrite Hdb2. reflexivity. }
    split.
    - intros r Hr. apply Hmem in Hr as [_ Hne]. exact Hne.
    - intros r Hr. apply list_elem_of_fmap in Hr as (q & -> & Hq).
      apply Hmem in Hq as [_ Hne]. exact Hne. }
  split; [reflexivity|]. split; [reflexivity|]. exact Hfs2.
Qed.

Lemma delete_existing_id_witness :
  exists w1 w2,
    V1.delete_products_id Scene.E2 (Scene.form "65a0c0ffee0000000000a001" None None)
        Scene.shop_without_picture
      = (w1, inr {| status := 200; body := JMessage "Product deleted successfully" |})
    /\ V2.delete_products_id Scene.E2 (Scene.form "65a0c0ffee0000000000a001" None None)
        Scene.shop_without_picture
      = (w2, inr {| status := 200; body := JMessage "Product deleted successfully" |})
    /\ db w1 = db w2
    /\ lookup "65a0c0ffee0000000000a001" (db w2) = None
    /\ console w2
       = [("Error deleting image:", "ENOENT")].
Proof.
  destruct (delete_existing_id Scene.E2 (Scene.form "65a0c0ffee0000000000a001" None None)
              Scene.shop_without_picture Scene.brush eq_refl eq_refl eq_refl)
    as (w1 & w2 & H1 & H2 & Hdb & Hgone & _ & _ & _ & _ & Hfs).
  - unfold unique_ids. simpl. apply NoDup_singleton.
  - reflexivity.
  - exists w1, w2. repeat split; try assumption.
    change (existing_image (Some Scene.brush))
      with (Some "/uploads/1700000000000-brush.png") in Hfs.
    change (Fs.unlink_error Scene.E2
              (Path.join (__dirname Scene.E2) "/uploads/1700000000000-brush.png")
              Scene.shop_without_picture)
      with (Some "ENOENT") in Hfs.
    apply Hfs.
Defined.

(** ** Replacing an image *)

(** What the request leaves on disk once the middleware has run. *)
Lemma single_with_file (E : env) (req : request) (file : file_part) (w : world) :
  file_image req = Some file ->
  Multer.single E req w
    = (with_files ({[Fs.locate E (Path.join "uploads/" (Multer.storage_filename E file))]}
                   ∪ files w) w,
       inr (Some {| filename := Multer.storage_filename E file |})).
Proof.
  intros Hfile. unfold Multer.single. rewrite Hfile. reflexivity.
Qed.

(** Variant 2 does what C3 says: with a file in the request and a document
    that has an image, the outcome of [unlink] only decides whether the old
    file goes or a line is written to the console; the document is updated
    and the answer is 200 either way. *)
Lemma v2_put_survives_unlink_failure
    (E : env) (req : request) (file : file_part) (w : world) (p : product) (img : string) :
  file_image req = Some file ->
  db_fault E (FindById (params_id req)) = None ->
  db_fault E (FindByIdAndUpdate (params_id req)) = None ->
  lookup (params_id req) (db w) = Some p ->
  existing_image (Some p) = Some img ->
  let uploaded := fst (Multer.single E req w) in
  let merged :=
    {| _id := _id p;
       name := match body_name req with Some n => n | None => name p end;
       price := match body_price req with Some q => q | None => price p end;
       description :=
         match body_description req with Some d => d | None => description p end;
       image := Some ("/uploads/" +:+ Multer.decimal (now E) +:+ "-" +:+ originalname file) |} in
  exists w',
    V2.put_products_id E req w
      = (w', inr {| status := 200; body := JProduct (V2.with_absolute_url req merged) |})
    /\ lookup (params_id req) (db w') = Some merged
    /\ match Fs.unlink_error E (Path.join (__dirname E) img) uploaded with
       | Some err =>
           files w' = files uploaded
           /\ console w' = (console w ++ [("Error deleting old image:", err)])%list
       | None =>
           files w' = files uploaded ∖ {[Fs.locate E (Path.join (__dirname E) img)]}
           /\ console w' = console w
       end.
Proof.
  intros Hfile Hfind Hupd Hp Himg uploaded merged.
  unfold uploaded. unfold V2.put_products_id, bind.
  rewrite (single_with_file E req file w Hfile). simpl.
  set (wu := with_files _ w).
  assert (merge (set_image ("/uploads/" +:+ Multer.storage_filename E file) (updatedData req)) p
          = merged) as Hm.
  { unfold merge, updatedData, merged. simpl.
    destruct (body_name req), (body_price req), (body_description req); reflexivity. }
  run. rewrite Hfind. simpl. rewrite Hp, Himg.
  destruct (Fs.unlink_error E (Path.join (__dirname E) img) wu) as [err|]; simpl;
    rewrite Hupd; simpl; rewrite Hp; simpl; rewrite Hm;
    (eexists; split; [reflexivity|]; split; [|split; reflexivity]); simpl;
    rewrite (lookup_update_first _ _ _ p (merge_id _) Hp), Hm; reflexivity.
Qed.

(** C3 fails on variant 1.  With a file in the request and a document that
    has an image, the route reaches [fs.unlink] with [fs] unbound: the
    [ReferenceError] lands in the [catch], the answer is 500, and the
    document is not updated. *)
Theorem v1_put_with_old_image_is_500
    (E : env) (req : request) (file : file_part) (w : world) (p : product) (img : string) :
  file_image req = Some file ->
  db_fault E (FindById (params_id req)) = None ->
  lookup (params_id req) (db w) = Some p ->
  existing_image (Some p) = Some img ->
  exists w',
    V1.put_products_id E req w
      = (w', inr {| status := 500; body := JError (ReferenceError "fs is not defined") |})
    /\ db w' = db w
    /\ console w' = console w.
Proof.
  intros Hfile Hfind Hp Himg.
  unfold V1.put_products_id, bind.
  rewrite (single_with_file E req file w Hfile). simpl.
  run. rewrite Hfind. simpl. rewrite Hp, Himg. simpl.
  eexists. repeat split; reflexivity.
Qed.

Lemma v1_put_with_old_image_is_500_witness :
  exists w',
    V1.put_products_id Scene.E2
        (Scene.form "65a0c0ffee0000000000a001" None (Some {| originalname := "new.png" |}))
        Scene.shop_without_picture
      = (w', inr {| status := 500; body := JError (ReferenceError "fs is not defined") |})
    /\ db w' = db Scene.shop_without_picture
    /\ console w' = console Scene.shop_without_picture.
Proof.
  apply (v1_put_with_old_image_is_500 Scene.E2
           (Scene.form "65a0c0ffee0000000000a001" None (Some {| originalname := "new.png" |}))
           {| originalname := "new.png" |} Scene.shop_without_picture Scene.brush
           "/uploads/1700000000000-brush.png");
    reflexivity.
Defined.

(** On that input variant 2 answers 200 with the new image and writes the
    failed [unlink] to the console. *)
Example v2_put_with_lost_old_image :
  exists w',
    V2.put_products_id Scene.E2
        (Scene.form "65a0c0ffee0000000000a001" None (Some {| originalname := "new.png" |}))
        Scene.shop_without_picture
      = (w', inr {| status := 200;
                    body := JProduct
                      {| _id := "65a0c0ffee0000000000a001"; name := "Brush";
                         price := (3 # 2)%Q; description := "Blue ink";
                         image := Some "http://localhost:3000/uploads/1700000000555-new.png" |} |})
    /\ console w' = [("Error deleting old image:", "ENOENT")].
Proof.
  eexists. split; vm_compute; reflexivity.
Qed.

(** ** The [_id] index is kept by every route *)

Lemma unique_ids_append (d : list product) (p : product) :
  NoDup (map _id d) -> lookup (_id p) d = None -> NoDup (map _id (d ++ [p])).
Proof.
  intros Hnd Hfresh. rewrite map_app. apply NoDup_app. split; [exact Hnd|].
  split; [|apply NoDup_singleton].
  intros i Hi Hp. apply list_elem_of_singleton in Hp as ->.
  apply list_elem_of_fmap in Hi as (q & Hq & Hin).
  apply (proj1 (lookup_None (_id p) d) Hfresh q Hin). symmetry. exact Hq.
Qed.

Lemma unique_ids_delete_first (id : oid) (d : list product) :
  NoDup (map _id d) -> NoDup (map _id (delete_first id d)).
Proof.
  intros Hnd. eapply sublist_NoDup; [exact Hnd | apply (fmap_sublist _id), delete_first_sublist].
Qed.

Lemma validate_id (id : oid) (d : draft) (p : product) :
  validate id d = inr p -> _id p = id.
Proof.
  unfold validate.
  destruct (required_string "name" (d_name d)); [discriminate|].
  destruct (required_number "price" (d_price d)); [discriminate|].
  destruct (required_string "description" (d_description d)); [discriminate|].
  intros [= <-]. reflexivity.
Qed.

Section Preservation.
Variable E : env.

Lemma preserves_ret {A} (I : world -> Prop) (a : A) : preserves I (ret a).
Proof. intros w w' r [= <- _] Hw. exact Hw. Qed.

Lemma preserves_throw {A} (I : world -> Prop) (e : error) : preserves I (@throw A e).
Proof. intros w w' r [= <- _] Hw. exact Hw. Qed.

Lemma preserves_bind {A B} (I : world -> Prop) (m : M A) (k : A -> M B) :
  preserves I m -> (forall a, preserves I (k a)) -> preserves I (bind m k).
Proof.
  intros Hm Hk w w' r. unfold bind. destruct (m w) as [w1 [e|a]] eqn:Hrun.
  - intros [= <- _] Hw. exact (Hm _ _ _ Hrun Hw).
  - intros Hrun' Hw. exact (Hk a _ _ _ Hrun' (Hm _ _ _ Hrun Hw)).
Qed.

Lemma preserves_try_catch {A} (I : world -> Prop) (m : M A) (h : error -> M A) :
  preserves I m -> (forall e, preserves I (h e)) -> preserves I (try_catch m h).
Proof.
  intros Hm Hh w w' r. unfold try_catch. destruct (m w) as [w1 [e|a]] eqn:Hrun.
  - intros Hrun' Hw. exact (Hh e _ _ _ Hrun' (Hm _ _ _ Hrun Hw)).
  - intros [= <- _] Hw. exact (Hm _ _ _ Hrun Hw).
Qed.

Lemma preserves_res_status_json (I : world -> Prop) (code : nat) (b : json) :
  preserves I (res_status_json code b).
Proof. apply preserves_ret. Qed.

Lemma preserves_console_error (label detail : string) :
  preserves unique_ids (modify_world (console_error label detail)).
Proof. intros w w' r [= <- _] Hw. exact Hw. Qed.

Lemma preserves_log_if_error (label : string) (err : option string) :
  preserves unique_ids (log_if_error label err).
Proof.
  destruct err; [apply preserves_console_error | apply preserves_ret].
Qed.

Lemma preserves_internal_server_error (label : string) (e : error) :
  preserves unique_ids (V2.internal_server_error label e).
Proof.
  apply preserves_bind; [apply preserves_console_error | intros _; apply preserves_ret].
Qed.

Lemma preserves_call (c : db_call) : preserves unique_ids (call E c).
Proof.
  unfold call. destruct (db_fault E c); [apply preserves_throw | apply preserves_ret].
Qed.

Lemma preserves_save (d : draft) : preserves unique_ids (save E d).
Proof.
  unfold save. destruct (validate (new_oid E) d) as [e|p] eqn:Hv; [apply preserves_throw|].
  intros w w' r. unfold bind, call, get_world, modify_world, ret, throw.
  destruct (db_fault E Save); [intros [= <- _] Hw; exact Hw|].
  destruct (lookup (_id p) (db w)) eqn:Hl; intros [= <- _] Hw; [exact Hw|].
  apply unique_ids_append; assumption.
Qed.

Lemma preserves_find : preserves unique_ids (find E).
Proof.
  intros w w' r. unfold find, bind, call, get_world, ret, throw.
  destruct (db_fault E Find); intros [= <- _] Hw; exact Hw.
Qed.

Lemma preserves_findById (id : oid) : preserves unique_ids (findById E id).
Proof.
  intros w w' r. unfold findById, bind, call, get_world, ret, throw.
  destruct (db_fault E (FindById id)); intros [= <- _] Hw; exact Hw.
Qed.

Lemma preserves_findByIdAndUpdate (id : oid) (u : update) :
  preserves unique_ids (findByIdAndUpdate E id u).
Proof.
  intros w w' r. unfold findByIdAndUpdate, bind, call, get_world, modify_world, ret, throw.
  destruct (db_fault E (FindByIdAndUpdate id)); [intros [= <- _] Hw; exact Hw|].
  destruct (lookup id (db w)); intros [= <- _] Hw; [|exact Hw].
  unfold unique_ids. simpl. rewrite update_first_ids by apply merge_id. exact Hw.
Qed.

Lemma preserves_findByIdAndDelete (id : oid) :
  preserves unique_ids (findByIdAndDelete E id).
Proof.
  intros w w' r. unfold findByIdAndDelete, bind, call, get_world, modify_world, ret, throw.
  destruct (db_fault E (FindByIdAndDelete id)); [intros [= <- _] Hw; exact Hw|].
  destruct (lookup id (db w)); intros [= <- _] Hw; [|exact Hw].
  apply unique_ids_delete_first. exact Hw.
Qed.

Lemma preserves_unlink (path : string) (cb : option string -> M unit) :
  (forall err, preserves unique_ids (cb err)) -> preserves unique_ids (Fs.unlink E path cb).
Proof.
  intros Hcb w w' r. unfold Fs.unlink, bind, get_world, modify_world.
  destruct (Fs.unlink_error E path w); intros Hrun Hw;
    exact (Hcb _ _ _ _ Hrun Hw).
Qed.

Lemma preserves_single (req : request) : preserves unique_ids (Multer.single E req).
Proof.
  intros w w' r. unfold Multer.single, Fs.write_file, bind, get_world, modify_world, ret.
  destruct (file_image req); intros [= <- _] Hw; exact Hw.
Qed.

End Preservation.

Create HintDb keeps discriminated.
#[local] Hint Resolve preserves_ret preserves_throw preserves_res_status_json
  preserves_console_error
  preserves_log_if_error preserves_internal_server_error preserves_call preserves_save
  preserves_find preserves_findById preserves_findByIdAndUpdate
  preserves_findByIdAndDelete preserves_unlink preserves_single : keeps.

Ltac keeps :=
  repeat first
    [ solve [auto with keeps]
    | match goal with |- preserves _ (match ?x with _ => _ end) => destruct x end
    | apply preserves_try_catch; [|intros ?]
    | apply preserves_bind; [|intros ?] ].

(** The routes never put two documents with one id into the collection. *)
Lemma routes_keep_ids_unique (E : env) (req : request) :
  preserves unique_ids (V1.post_products E req)
  /\ preserves unique_ids (V2.post_products E req)
  /\ preserves unique_ids (V1.get_products E req)
  /\ preserves unique_ids (V2.get_products E req)
  /\ preserves unique_ids (V1.put_products_id E req)
  /\ preserves unique_ids (V2.put_products_id E req)
  /\ preserves unique_ids (V1.delete_products_id E req)
  /\ preserves unique_ids (V2.delete_products_id E req).
Proof.
  unfold V1.post_products, V2.post_products, V1.get_products, V2.get_products,
    V1.put_products_id, V2.put_products_id, V1.delete_products_id, V2.delete_products_id,
    V1.post_products_handler, V2.post_products_handler,
    V1.put_products_id_handler, V2.put_products_id_handler, V1.fs_unlink.
  repeat split; keeps.
Qed.

Lemma empty_collection_unique_ids : unique_ids Scene.empty.
Proof. apply NoDup_nil. exact I. Qed.

(** * Beyond the claims: what else the routes do *)

#[local] Arguments validate : simpl never.

(** Case analysis on whatever a route branches on next. *)
Ltac branch :=
  repeat (simpl;
          match goal with
          | |- context [match ?x with _ => _ end] =>
              lazymatch x with
              | context [match _ with _ => _ end] => fail
              | _ => destruct x eqn:?
              end
          end).

(** ** No error escapes a route *)

(** Every route answers every request, whatever the database and the file
    system do: POST and GET with 200 or 500, PUT and DELETE with 200, 404 or
    500.  No thrown error leaves a handler. *)
Theorem routes_always_answer (E : env) (req : request) (w : world) :
  (exists w' r, V1.post_products E req w = (w', inr r)
                /\ (status r = 200 \/ status r = 500))
  /\ (exists w' r, V2.post_products E req w = (w', inr r)
                   /\ (status r = 200 \/ status r = 500))
  /\ (exists w' r, V1.get_products E req w = (w', inr r)
                   /\ (status r = 200 \/ status r = 500))
  /\ (exists w' r, V2.get_products E req w = (w', inr r)
                   /\ (status r = 200 \/ status r = 500))
  /\ (exists w' r, V1.put_products_id E req w = (w', inr r)
                   /\ (status r = 200 \/ status r = 404 \/ status r = 500))
  /\ (exists w' r, V2.put_products_id E req w = (w', inr r)
                   /\ (status r = 200 \/ status r = 404 \/ status r = 500))
  /\ (exists w' r, V1.delete_products_id E req w = (w', inr r)
                   /\ (status r = 200 \/ status r = 404 \/ status r = 500))
  /\ (exists w' r, V2.delete_products_id E req w = (w', inr r)
                   /\ (status r = 200 \/ status r = 404 \/ status r = 500)).
Proof.
  repeat split; run; branch; eexists _, _; (split; [reflexivity|]); simpl; auto.
Qed.

(** ** What POST leaves behind *)

(** A POST either creates exactly one document, appended to the collection
    under the id that was drawn and sent back with 200, or answers 500 and
    leaves the collection as it was.  Either way no file is removed. *)
Theorem post_creates_one_or_none (E : env) (req : request) (w : world) :
  exists w1 r1 w2 r2,
    V1.post_products E req w = (w1, inr r1)
    /\ V2.post_products E req w = (w2, inr r2)
    /\ db w1 = db w2
    /\ status r1 = status r2
    /\ ((status r2 = 200
         /\ exists p, body r1 = JProduct p /\ body r2 = JProduct p
                      /\ _id p = new_oid E
                      /\ lookup (new_oid E) (db w) = None
                      /\ db w2 = (db w ++ [p])%list)
        \/ (status r2 = 500 /\ db w2 = db w))
    /\ files w ⊆ files w1
    /\ files w ⊆ files w2.
Proof.
  run. branch; eexists _, _, _, _;
    (split; [reflexivity|]); (split; [reflexivity|]);
    (split; [reflexivity|]); (split; [reflexivity|]); simpl;
    (split; [|split; set_solver]);
    try (right; split; reflexivity).
  all: match goal with
       | Hv : validate _ _ = inr _ |- _ => pose proof (validate_id _ _ _ Hv) as Hid
       end;
    left; split; [reflexivity|]; eexists; repeat split; try reflexivity;
    try exact Hid; rewrite <- Hid; assumption.
Qed.

Lemma validate_missing (id : oid) (d : draft) :
  d_name d = None \/ d_name d = Some "" \/ d_price d = None
  \/ d_description d = None \/ d_description d = Some "" ->
  exists e, validate id d = inl e.
Proof.
  unfold validate, required_string, required_number.
  intros [H|[H|[H|[H|H]]]]; rewrite H;
    destruct (d_name d) as [n|]; try destruct (String.eqb n ""); simpl;
    destruct (d_price d); simpl; eauto.
Qed.

(** A POST that lacks one of the fields the schema requires (or carries an
    empty name or description) answers 500 and stores no document; variant 2
    also writes the error to the console.  A file the request carried was
    stored before the handler ran and stays on disk, referenced by no
    document. *)
Theorem post_missing_field_is_500 (E : env) (req : request) (w : world) :
  body_name req = None \/ body_name req = Some "" \/ body_price req = None
  \/ body_description req = None \/ body_description req = Some "" ->
  exists e w1 w2,
    V1.post_products E req w = (w1, inr {| status := 500; body := JError e |})
    /\ V2.post_products E req w
       = (w2, inr {| status := 500;
                     body := JInternal "Internal Server Error" (error_message e) |})
    /\ db w1 = db w /\ db w2 = db w
    /\ console w1 = console w
    /\ console w2 = (console w ++ [("Error saving product:", error_message e)])%list
    /\ files w1 = files w2
    /\ match file_image req with
       | Some file =>
           files w1
           = {[Fs.locate E (Path.join "uploads/" (Multer.storage_filename E file))]}
             ∪ files w
       | None => files w1 = files w
       end.
Proof.
  intros Hbad.
  destruct (validate_missing (new_oid E)
              {| d_name := body_name req; d_price := body_price req;
                 d_description := body_description req;
                 d_image := imageUrl (match file_image req with
                                      | Some file =>
                                          Some {| filename := Multer.storage_filename E file |}
                                      | None => None
                                      end) |} Hbad) as [e He].
  exists e. run. destruct (file_image req) as [file|]; simpl; simpl in He; rewrite He;
    eexists _, _; repeat split; reflexivity.
Qed.

Lemma post_missing_field_is_500_witness :
  exists e w1 w2,
    V1.post_products Scene.E1
        (Scene.form "" None (Some {| originalname := "easel.png" |})) Scene.empty
      = (w1, inr {| status := 500; body := JError e |})
    /\ V2.post_products Scene.E1
        (Scene.form "" None (Some {| originalname := "easel.png" |})) Scene.empty
       = (w2, inr {| status := 500;
                     body := JInternal "Internal Server Error" (error_message e) |})
    /\ db w1 = [] /\ db w2 = []
    /\ files w1 = files w2
    /\ files w1 = {["/srv/app/uploads/1700000000000-easel.png"]} ∪ ∅.
Proof.
  destruct (post_missing_field_is_500 Scene.E1
              (Scene.form "" None (Some {| originalname := "easel.png" |})) Scene.empty)
    as (e & w1 & w2 & H1 & H2 & Hd1 & Hd2 & _ & _ & Hf & Hfile).
  - left. reflexivity.
  - exists e, w1, w2. repeat split; assumption.
Defined.

(** ** What PUT and variant 1 never do *)

(** A PUT never adds or removes a document: whatever it answers (200, 404
    or 500), the ids of the collection, in order, are what they were. *)
Theorem put_never_changes_ids (E : env) (req : request) (w : world) :
  map _id (db (fst (V1.put_products_id E req w))) = map _id (db w)
  /\ map _id (db (fst (V2.put_products_id E req w))) = map _id (db w).
Proof.
  split; run; branch; simpl; try reflexivity; apply update_first_ids, merge_id.
Qed.

(** Variant 1 has no way to remove a file or to write to the console: after
    any of its routes every file that was on disk still is (so the files of
    deleted and of replaced images accumulate) and the console is
    unchanged. *)
Theorem v1_never_removes_a_file (E : env) (req : request) (w : world) :
  (files w ⊆ files (fst (V1.post_products E req w))
   /\ console (fst (V1.post_products E req w)) = console w)
  /\ (files w ⊆ files (fst (V1.get_products E req w))
      /\ console (fst (V1.get_products E req w)) = console w)
  /\ (files w ⊆ files (fst (V1.put_products_id E req w))
      /\ console (fst (V1.put_products_id E req w)) = console w)
  /\ (files w ⊆ files (fst (V1.delete_products_id E req w))
      /\ console (fst (V1.delete_products_id E req w)) = console w).
Proof.
  repeat split; run; branch; simpl; try reflexivity; set_solver.
Qed.

(** ** Variant 2 on a failure *)



(** The two steps of variant 2's DELETE are not one: when the file of the
    image was removed and the database then rejects the removal of the
    document, the answer is 500, the document is still in the collection and
    its image file is gone. *)
Theorem v2_delete_rejected_after_unlink
    (E : env) (req : request) (w : world) (p : product) (img : string) (e : error) :
  db_fault E (FindById (params_id req)) = None ->
  db_fault E (FindByIdAndDelete (params_id req)) = Some e ->
  lookup (params_id req) (db w) = Some p ->
  existing_image (Some p) = Some img ->
  Fs.unlink_error E (Path.join (__dirname E) img) w = None ->
  exists w',
    V2.delete_products_id E req w
      = (w', inr {| status := 500;
                    body := JInternal "Internal Server Error" (error_message e) |})
    /\ db w' = db w
    /\ files w' = files w ∖ {[Fs.locate E (Path.join (__dirname E) img)]}
    /\ console w' = (console w ++ [("Error deleting product:", error_message e)])%list.
Proof.
  intros Hfind Hdel Hp Himg Hunlink. run. rewrite Hfind. simpl.
  rewrite Hp, Himg, Hunlink. simpl. rewrite Hdel. simpl.
  eexists. repeat split; reflexivity.
Qed.

Lemma v2_delete_rejected_after_unlink_witness :
  exists w',
    V2.delete_products_id Outage.E_delete_rejected
        (Scene.form "65a0c0ffee0000000000a001" None None) Scene.shop
      = (w', inr {| status := 500;
                    body := JInternal "Internal Server Error" "not primary" |})
    /\ db w' = [Scene.brush]
    /\ files w'
       = files Scene.shop
         ∖ {[Fs.locate Outage.E_delete_rejected
               (Path.join "/srv/app" "/uploads/1700000000000-brush.png")]}
    /\ console w' = ([] ++ [("Error deleting product:", "not primary")])%list.
Proof.
  apply (v2_delete_rejected_after_unlink Outage.E_delete_rejected
           (Scene.form "65a0c0ffee0000000000a001" None None) Scene.shop Scene.brush
           "/uploads/1700000000000-brush.png" (MongoError "not primary"));
    reflexivity.
Defined.

(** ** Giving a product its first image *)

(** A PUT with a file on a document that has no image works in both
    variants (variant 1 does not reach its unbound [fs] here): the image
    becomes the path of the upload, the other fields are merged, the upload
    is on disk, no file is removed and nothing is written to the console. *)
Theorem put_first_image
    (E : env) (req : request) (file : file_part) (w : world) (p : product) :
  file_image req = Some file ->
  db_fault E (FindById (params_id req)) = None ->
  db_fault E (FindByIdAndUpdate (params_id req)) = None ->
  lookup (params_id req) (db w) = Some p ->
  existing_image (Some p) = None ->
  let merged :=
    {| _id := _id p;
       name := match body_name req with Some n => n | None => name p end;
       price := match body_price req with Some q => q | None => price p end;
       description :=
         match body_description req with Some d => d | None => description p end;
       image := Some ("/uploads/" +:+ Multer.decimal (now E) +:+ "-" +:+ originalname file) |} in
  exists w',
    V1.put_products_id E req w
      = (w', inr {| status := 200; body := JProduct merged |})
    /\ V2.put_products_id E req w
      = (w', inr {| status := 200; body := JProduct (V2.with_absolute_url req merged) |})
    /\ lookup (params_id req) (db w') = Some merged
    /\ files w'
       = {[Fs.locate E (Path.join "uploads/"
                          (Multer.decimal (now E) +:+ "-" +:+ originalname file))]}
         ∪ files w
    /\ console w' = console w.
Proof.
  intros Hfile Hfind Hupd Hp Himg merged.
  assert (merge (set_image ("/uploads/" +:+ Multer.storage_filename E file) (updatedData req)) p
          = merged) as Hm.
  { unfold merge, updatedData, merged. simpl.
    destruct (body_name req), (body_price req), (body_description req); reflexivity. }
  unfold V1.put_products_id, V2.put_products_id, bind.
  rewrite (single_with_file E req file w Hfile). simpl.
  run. rewrite Hfind. simpl. rewrite Hp, Himg. simpl. rewrite Hupd. simpl.
  rewrite Hp. simpl. rewrite Hm.
  eexists. repeat split; simpl.
  rewrite (lookup_update_first _ _ _ p (merge_id _) Hp), Hm. reflexivity.
Qed.

Lemma put_first_image_witness :
  exists w',
    V1.put_products_id Scene.E2
        (Scene.form "65a0c0ffee0000000000a001" None (Some {| originalname := "pen.png" |}))
        (with_db [Scene.pen] Scene.empty)
      = (w', inr {| status := 200;
                    body := JProduct
                      {| _id := "65a0c0ffee0000000000a001"; name := "Pen";
                         price := (3 # 2)%Q; description := "Blue ink";
                         image := Some "/uploads/1700000000555-pen.png" |} |})
    /\ console w' = [].
Proof.
  destruct (put_first_image Scene.E2
              (Scene.form "65a0c0ffee0000000000a001" None (Some {| originalname := "pen.png" |}))
              {| originalname := "pen.png" |} (with_db [Scene.pen] Scene.empty) Scene.pen
              eq_refl eq_refl eq_refl eq_refl eq_refl)
    as (w' & H1 & _ & _ & _ & Hc).
  exists w'. split; [exact H1 | exact Hc].
Defined.

(** The lemma [v2_put_survives_unlink_failure] at a document whose old
    image file is lost. *)
Lemma v2_put_survives_unlink_failure_witness :
  exists w',
    V2.put_products_id Scene.E2
        (Scene.form "65a0c0ffee0000000000a001" None (Some {| originalname := "new.png" |}))
        Scene.shop_without_picture
      = (w', inr {| status := 200;
                    body := JProduct
                      {| _id := "65a0c0ffee0000000000a001"; name := "Brush";
                         price := (3 # 2)%Q; description := "Blue ink";
                         image := Some "http://localhost:3000/uploads/1700000000555-new.png" |} |})
    /\ lookup "65a0c0ffee0000000000a001" (db w')
       = Some {| _id := "65a0c0ffee0000000000a001"; name := "Brush";
                 price := (3 # 2)%Q; description := "Blue ink";
                 image := Some "/uploads/1700000000555-new.png" |}.
Proof.
  destruct (v2_put_survives_unlink_failure Scene.E2
              (Scene.form "65a0c0ffee0000000000a001" None (Some {| originalname := "new.png" |}))
              {| originalname := "new.png" |} Scene.shop_without_picture Scene.brush
              "/uploads/1700000000000-brush.png" eq_refl eq_refl eq_refl eq_refl eq_refl)
    as (w' & H1 & H2 & _).
  exists w'. split; [exact H1 | exact H2].
Defined.

(** The lemma [routes_keep_ids_unique] at a POST into the empty collection. *)
Lemma routes_keep_ids_unique_witness :
  unique_ids (fst (V2.post_products Scene.E1 (Scene.form "" (Some "Pen") None) Scene.empty)).
Proof.
  apply (proj1 (proj2 (routes_keep_ids_unique Scene.E1 (Scene.form "" (Some "Pen") None)))
           Scene.empty _
           (snd (V2.post_products Scene.E1 (Scene.form "" (Some "Pen") None) Scene.empty))).
  - reflexivity.
  - apply NoDup_nil. exact I.
Defined.

(** ** Routes one after the other *)

Lemma lookup_append_fresh (d : list product) (p : product) :
  lookup (_id p) d = None -> lookup (_id p) (d ++ [p]) = Some p.
Proof.
  unfold lookup. induction d as [|q d IH]; simpl.
  - intros _. unfold has_id. rewrite String.eqb_refl. reflexivity.
  - destruct (has_id (_id p) q); [discriminate | exact IH].
Qed.

Lemma delete_first_append_fresh (d : list product) (p : product) :
  lookup (_id p) d = None -> delete_first (_id p) (d ++ [p]) = d.
Proof.
  unfold lookup. induction d as [|q d IH]; simpl.
  - intros _. unfold has_id. rewrite String.eqb_refl. reflexivity.
  - destruct (has_id (_id p) q); [discriminate|]. intros H. rewrite IH by exact H.
    reflexivity.
Qed.

Lemma merge_idempotent (u : update) (p : product) : merge u (merge u p) = merge u p.
Proof.
  unfold merge. simpl.
  destruct (u_name u), (u_price u), (u_description u), (u_image u); reflexivity.
Qed.

Lemma update_first_idempotent (id : oid) (f : product -> product) (d : list product) :
  (forall q, _id (f q) = _id q) -> (forall q, f (f q) = f q) ->
  update_first id f (update_first id f d) = update_first id f d.
Proof.
  intros Hid Hf. induction d as [|q d IH]; simpl; [reflexivity|].
  destruct (has_id id q) eqn:Hq; simpl.
  - unfold has_id in *. rewrite Hid, Hq, Hf. reflexivity.
  - rewrite Hq, IH. reflexivity.
Qed.

(** A POST whose fields pass the schema, on a database that takes the
    insert under an id not yet used. *)
Lemma post_valid (E : env) (req : request) (w : world) (n d : string) (q : number) :
  body_name req = Some n -> n <> "" ->
  body_price req = Some q ->
  body_description req = Some d -> d <> "" ->
  db_fault E Save = None ->
  lookup (new_oid E) (db w) = None ->
  let created :=
    {| _id := new_oid E; name := n; price := q; description := d;
       image := match file_image req with
                | Some file =>
                    Some ("/uploads/" +:+ Multer.decimal (now E) +:+ "-" +:+ originalname file)
                | None => None
                end |} in
  let w1 := with_db (db w ++ [created]) (fst (Multer.single E req w)) in
  V1.post_products E req w = (w1, inr {| status := 200; body := JProduct created |})
  /\ V2.post_products E req w = (w1, inr {| status := 200; body := JProduct created |}).
Proof.
  intros Hn Hn0 Hq Hd Hd0 Hsave Hfresh created w1. unfold w1, created. run.
  unfold validate. simpl. apply String.eqb_neq in Hn0, Hd0.
  destruct (file_image req) as [file|]; simpl;
    rewrite Hn, Hq, Hd; simpl; rewrite Hn0, Hd0; simpl;
    rewrite Hsave; simpl; rewrite Hfresh; simpl; split; reflexivity.
Qed.

(** A DELETE on an id the collection holds, on a database that answers. *)
Lemma delete_found (E : env) (req : request) (w : world) (p : product) :
  db_fault E (FindById (params_id req)) = None ->
  db_fault E (FindByIdAndDelete (params_id req)) = None ->
  lookup (params_id req) (db w) = Some p ->
  exists w1 w2,
    V1.delete_products_id E req w
      = (w1, inr {| status := 200; body := JMessage "Product deleted successfully" |})
    /\ V2.delete_products_id E req w
       = (w2, inr {| status := 200; body := JMessage "Product deleted successfully" |})
    /\ db w1 = delete_first (params_id req) (db w)
    /\ db w2 = delete_first (params_id req) (db w).
Proof.
  intros Hfind Hdel Hp. run. rewrite Hfind, Hdel. simpl. rewrite Hp. simpl.
  destruct (existing_image (Some p)) as [img|]; simpl;
    [destruct (Fs.unlink_error E (Path.join (__dirname E) img) w); simpl|];
    rewrite ?Hdel; simpl; rewrite ?Hp; simpl;
    eexists _, _; repeat split; reflexivity.
Qed.

(** A DELETE on an id the collection does not hold. *)
Lemma delete_not_found (E : env) (req : request) (w : world) :
  db_fault E (FindById (params_id req)) = None ->
  db_fault E (FindByIdAndDelete (params_id req)) = None ->
  lookup (params_id req) (db w) = None ->
  V1.delete_products_id E req w
    = (w, inr {| status := 404; body := JMessage "Product not found" |})
  /\ V2.delete_products_id E req w
     = (w, inr {| status := 404; body := JMessage "Product not found" |}).
Proof.
  intros Hfind Hdel Hnone. run. rewrite Hfind, Hdel. simpl. rewrite Hnone.
  split; reflexivity.
Qed.

(** What was created is listed.  After a POST that succeeds, a GET shows
    the stored records followed by the new one: variant 1 as stored,
    variant 2 with the image, if the POST carried a file, as
    scheme, host and [/uploads/<timestamp>-<original-filename>]. *)
Theorem post_then_get
    (E E' : env) (req req' : request) (w : world) (n d : string) (q : number) :
  body_name req = Some n -> n <> "" ->
  body_price req = Some q ->
  body_description req = Some d -> d <> "" ->
  db_fault E Save = None ->
  lookup (new_oid E) (db w) = None ->
  db_fault E' Find = None ->
  let created :=
    {| _id := new_oid E; name := n; price := q; description := d;
       image := match file_image req with
                | Some file =>
                    Some ("/uploads/" +:+ Multer.decimal (now E) +:+ "-" +:+ originalname file)
                | None => None
                end |} in
  let shown :=
    {| _id := new_oid E; name := n; price := q; description := d;
       image := match file_image req with
                | Some file =>
                    Some (protocol req' +:+ "://" +:+ host req' +:+ "/uploads/"
                          +:+ Multer.decimal (now E) +:+ "-" +:+ originalname file)
                | None => None
                end |} in
  exists w1,
    V1.post_products E req w = (w1, inr {| status := 200; body := JProduct created |})
    /\ V2.post_products E req w = (w1, inr {| status := 200; body := JProduct created |})
    /\ V1.get_products E' req' w1
       = (w1, inr {| status := 200; body := JProducts (db w ++ [created]) |})
    /\ V2.get_products E' req' w1
       = (w1, inr {| status := 200;
                     body := JProducts (map (V2.with_absolute_url req') (db w) ++ [shown]) |}).
Proof.
  intros Hn Hn0 Hq Hd Hd0 Hsave Hfresh Hfind created shown.
  destruct (post_valid E req w n d q Hn Hn0 Hq Hd Hd0 Hsave Hfresh) as [H1 H2].
  eexists. split; [exact H1|]. split; [exact H2|].
  run. rewrite Hfind. simpl. split; [reflexivity|].
  rewrite map_app. unfold shown. simpl.
  destruct (file_image req); reflexivity.
Qed.

Lemma post_then_get_witness :
  exists w1,
    V2.post_products Scene.E1
        (Scene.form "" (Some "Brush") (Some {| originalname := "brush.png" |})) Scene.empty
      = (w1, inr {| status := 200;
                    body := JProduct
                      {| _id := "65a0c0ffee0000000000a001"; name := "Brush";
                         price := (3 # 2)%Q; description := "Blue ink";
                         image := Some "/uploads/1700000000000-brush.png" |} |})
    /\ V2.get_products Scene.E2 (Scene.form "" None None) w1
       = (w1, inr {| status := 200;
                     body := JProducts
                       [{| _id := "65a0c0ffee0000000000a001"; name := "Brush";
                           price := (3 # 2)%Q; description := "Blue ink";
                           image := Some "http://localhost:3000/uploads/1700000000000-brush.png" |}] |}).
Proof.
  destruct (post_then_get Scene.E1 Scene.E2
              (Scene.form "" (Some "Brush") (Some {| originalname := "brush.png" |}))
              (Scene.form "" None None) Scene.empty "Brush" "Blue ink" (3 # 2)%Q)
    as (w1 & _ & H2 & _ & H4); try solve [reflexivity | discriminate].
  exists w1. split; [exact H2 | exact H4].
Defined.

(** Creating a product and then deleting it under the id the POST sent
    back gives the collection back as it was, in both variants. *)
Theorem post_then_delete_restores_collection
    (E E' : env) (req req' : request) (w : world) (n d : string) (q : number) :
  body_name req = Some n -> n <> "" ->
  body_price req = Some q ->
  body_description req = Some d -> d <> "" ->
  db_fault E Save = None ->
  lookup (new_oid E) (db w) = None ->
  params_id req' = new_oid E ->
  db_fault E' (FindById (new_oid E)) = None ->
  db_fault E' (FindByIdAndDelete (new_oid E)) = None ->
  exists w1 created w2 w3,
    V1.post_products E req w = (w1, inr {| status := 200; body := JProduct created |})
    /\ V2.post_products E req w = (w1, inr {| status := 200; body := JProduct created |})
    /\ _id created = new_oid E
    /\ V1.delete_products_id E' req' w1
       = (w2, inr {| status := 200; body := JMessage "Product deleted successfully" |})
    /\ V2.delete_products_id E' req' w1
       = (w3, inr {| status := 200; body := JMessage "Product deleted successfully" |})
    /\ db w2 = db w
    /\ db w3 = db w.
Proof.
  intros Hn Hn0 Hq Hd Hd0 Hsave Hfresh Hid Hfind Hdel.
  destruct (post_valid E req w n d q Hn Hn0 Hq Hd Hd0 Hsave Hfresh) as [H1 H2].
  set (created := {| _id := new_oid E; name := n |}) in *.
  set (w1 := with_db (db w ++ [created]) _) in *.
  rewrite <- Hid in Hfind, Hdel.
  destruct (delete_found E' req' w1 created Hfind Hdel) as (w2 & w3 & H3 & H4 & Hd2 & Hd3).
  { rewrite Hid. apply (lookup_append_fresh (db w) created Hfresh). }
  exists w1, created, w2, w3. repeat split; try assumption.
  - rewrite Hd2, Hid. apply (delete_first_append_fresh (db w) created Hfresh).
  - rewrite Hd3, Hid. apply (delete_first_append_fresh (db w) created Hfresh).
Qed.

Lemma post_then_delete_restores_collection_witness :
  exists w1 created w2 w3,
    V1.post_products Scene.E1 (Scene.form "" (Some "Pen") None) Scene.empty
      = (w1, inr {| status := 200; body := JProduct created |})
    /\ V2.post_products Scene.E1 (Scene.form "" (Some "Pen") None) Scene.empty
      = (w1, inr {| status := 200; body := JProduct created |})
    /\ _id created = "65a0c0ffee0000000000a001"
    /\ V1.delete_products_id Scene.E2 (Scene.form "65a0c0ffee0000000000a001" None None) w1
       = (w2, inr {| status := 200; body := JMessage "Product deleted successfully" |})
    /\ V2.delete_products_id Scene.E2 (Scene.form "65a0c0ffee0000000000a001" None None) w1
       = (w3, inr {| status := 200; body := JMessage "Product deleted successfully" |})
    /\ db w2 = []
    /\ db w3 = [].
Proof.
  apply (post_then_delete_restores_collection Scene.E1 Scene.E2
           (Scene.form "" (Some "Pen") None)
           (Scene.form "65a0c0ffee0000000000a001" None None)
           Scene.empty "Pen" "Blue ink" (3 # 2)%Q);
    solve [reflexivity | discriminate].
Defined.

(** Deleting twice: once a DELETE has answered 200, the same DELETE
    answers 404 and changes nothing, in both variants. *)
Theorem delete_twice_is_404 (E E' : env) (req : request) (w : world) (p : product) :
  unique_ids w ->
  lookup (params_id req) (db w) = Some p ->
  db_fault E (FindById (params_id req)) = None ->
  db_fault E (FindByIdAndDelete (params_id req)) = None ->
  db_fault E' (FindById (params_id req)) = None ->
  db_fault E' (FindByIdAndDelete (params_id req)) = None ->
  exists w1 w2,
    V1.delete_products_id E req w
      = (w1, inr {| status := 200; body := JMessage "Product deleted successfully" |})
    /\ V1.delete_products_id E' req w1
       = (w1, inr {| status := 404; body := JMessage "Product not found" |})
    /\ V2.delete_products_id E req w
       = (w2, inr {| status := 200; body := JMessage "Product deleted successfully" |})
    /\ V2.delete_products_id E' req w2
       = (w2, inr {| status := 404; body := JMessage "Product not found" |}).
Proof.
  intros Huniq Hp Hfind Hdel Hfind' Hdel'.
  destruct (delete_found E req w p Hfind Hdel Hp) as (w1 & w2 & H1 & H2 & Hd1 & Hd2).
  exists w1, w2. split; [exact H1|]. split; [|split; [exact H2|]].
  - apply (delete_not_found E' req w1 Hfind' Hdel').
    rewrite Hd1. apply lookup_delete_first, Huniq.
  - apply (delete_not_found E' req w2 Hfind' Hdel').
    rewrite Hd2. apply lookup_delete_first, Huniq.
Qed.

Lemma delete_twice_is_404_witness :
  exists w1 w2,
    V1.delete_products_id Scene.E1 (Scene.form "65a0c0ffee0000000000a001" None None) Scene.shop
      = (w1, inr {| status := 200; body := JMessage "Product deleted successfully" |})
    /\ V1.delete_products_id Scene.E2 (Scene.form "65a0c0ffee0000000000a001" None None) w1
       = (w1, inr {| status := 404; body := JMessage "Product not found" |})
    /\ V2.delete_products_id Scene.E1 (Scene.form "65a0c0ffee0000000000a001" None None) Scene.shop
       = (w2, inr {| status := 200; body := JMessage "Product deleted successfully" |})
    /\ V2.delete_products_id Scene.E2 (Scene.form "65a0c0ffee0000000000a001" None None) w2
       = (w2, inr {| status := 404; body := JMessage "Product not found" |}).
Proof.
  apply (delete_twice_is_404 Scene.E1 Scene.E2
           (Scene.form "65a0c0ffee0000000000a001" None None) Scene.shop Scene.brush);
    try reflexivity.
  unfold unique_ids. simpl. apply NoDup_singleton.
Defined.

(** A PUT without a file can be repeated: sent again to the world the first
    one left, it gives the same answer and leaves that world as it is. *)
Theorem put_without_file_is_idempotent (E : env) (req : request) (w : world) :
  file_image req = None ->
  db_fault E (FindByIdAndUpdate (params_id req)) = None ->
  V1.put_products_id E req (fst (V1.put_products_id E req w))
    = V1.put_products_id E req w
  /\ V2.put_products_id E req (fst (V2.put_products_id E req w))
     = V2.put_products_id E req w.
Proof.
  intros Hfile Hupd. run. rewrite Hfile. simpl. rewrite Hupd. simpl.
  destruct (lookup (params_id req) (db w)) as [p|] eqn:Hp; simpl; rewrite ?Hupd; simpl.
  - rewrite (lookup_update_first _ _ _ p (merge_id _) Hp). simpl.
    rewrite (update_first_idempotent _ _ _ (merge_id _) (merge_idempotent _)).
    rewrite merge_idempotent. split; reflexivity.
  - rewrite Hp. split; reflexivity.
Qed.

Lemma put_without_file_is_idempotent_witness :
  V1.put_products_id Scene.E2 (Scene.form "65a0c0ffee0000000000a001" (Some "Fan brush") None)
      (fst (V1.put_products_id Scene.E2
              (Scene.form "65a0c0ffee0000000000a001" (Some "Fan brush") None) Scene.shop))
    = V1.put_products_id Scene.E2
        (Scene.form "65a0c0ffee0000000000a001" (Some "Fan brush") None) Scene.shop
  /\ V2.put_products_id Scene.E2 (Scene.form "65a0c0ffee0000000000a001" (Some "Fan brush") None)
       (fst (V2.put_products_id Scene.E2
               (Scene.form "65a0c0ffee0000000000a001" (Some "Fan brush") None) Scene.shop))
     = V2.put_products_id Scene.E2
         (Scene.form "65a0c0ffee0000000000a001" (Some "Fan brush") None) Scene.shop.
Proof.
  apply (put_without_file_is_idempotent Scene.E2
           (Scene.form "65a0c0ffee0000000000a001" (Some "Fan brush") None) Scene.shop);
    reflexivity.
Defined.

(** ** Stored images stay relative *)

Lemma validate_image (id : oid) (d : draft) (p : product) :
  validate id d = inr p -> image p = d_image d.
Proof.
  unfold validate.
  destruct (required_string "name" (d_name d)); [discriminate|].
  destruct (required_number "price" (d_price d)); [discriminate|].
  destruct (required_string "description" (d_description d)); [discriminate|].
  intros [= <-]. reflexivity.
Qed.

Lemma Forall_update_first (P : product -> Prop) (id : oid) (f : product -> product)
    (d : list product) :
  (forall q, P q -> P (f q)) -> Forall P d -> Forall P (update_first id f d).
Proof.
  intros Hf. induction 1 as [|q d Hq Hd IH]; simpl; [constructor|].
  destruct (has_id id q); constructor; auto.
Qed.

Lemma Forall_delete_first (P : product -> Prop) (id : oid) (d : list product) :
  Forall P d -> Forall P (delete_first id d).
Proof.
  induction 1 as [|q d Hq Hd IH]; simpl; [constructor|].
  destruct (has_id id q); [exact Hd | constructor; assumption].
Qed.

Lemma under_uploads_merge (u : update) (q : product) :
  under_uploads (u_image u) -> under_uploads (image q) -> under_uploads (image (merge u q)).
Proof.
  unfold merge. simpl. destruct (u_image u); intros Hu Hq; assumption.
Qed.

(** No route ever stores an absolute URL, or any image that is not null or
    a path under [/uploads/]: if the collection is so before a request, it
    is so after it, in both variants and whatever the answer. *)
Theorem routes_keep_images_relative (E : env) (req : request) (w : world) :
  relative_images w ->
  relative_images (fst (V1.post_products E req w))
  /\ relative_images (fst (V2.post_products E req w))
  /\ relative_images (fst (V1.get_products E req w))
  /\ relative_images (fst (V2.get_products E req w))
  /\ relative_images (fst (V1.put_products_id E req w))
  /\ relative_images (fst (V2.put_products_id E req w))
  /\ relative_images (fst (V1.delete_products_id E req w))
  /\ relative_images (fst (V2.delete_products_id E req w)).
Proof.
  unfold relative_images. intros Hw.
  repeat split; run; branch; simpl; try exact Hw;
    try (apply Forall_delete_first; exact Hw);
    try (apply Forall_update_first; [|exact Hw]; intros q Hq;
         apply under_uploads_merge; [simpl; eauto | exact Hq]).
  all: apply Forall_app; split; [exact Hw|]; constructor; [|constructor];
    match goal with
    | Hv : validate _ _ = inr _ |- _ => rewrite (validate_image _ _ _ Hv)
    end; simpl; eauto.
Qed.

Lemma routes_keep_images_relative_witness :
  relative_images
    (fst (V2.put_products_id Scene.E2
            (Scene.form "65a0c0ffee0000000000a001" None (Some {| originalname := "new.png" |}))
            Scene.shop)).
Proof.
  destruct (routes_keep_images_relative Scene.E2
              (Scene.form "65a0c0ffee0000000000a001" None (Some {| originalname := "new.png" |}))
              Scene.shop) as (_ & _ & _ & _ & _ & Hput & _).
  - constructor; [|constructor]. simpl. exists "1700000000000-brush.png". reflexivity.
  - exact Hput.
Defined.

(** ** The names multer generates *)

Lemma free_of_digits (u : Decimal.uint) : free_of "-" (NilEmpty.string_of_uint u) = true.
Proof. induction u; simpl; try rewrite IHu; reflexivity. Qed.

Lemma free_of_decimal (n : N) : free_of "-" (Multer.decimal n) = true.
Proof.
  unfold Multer.decimal, NilZero.string_of_uint.
  destruct (N.to_uint n) eqn:Hu; try reflexivity; rewrite <- Hu; apply free_of_digits.
Qed.

Lemma decimal_injective (n m : N) : Multer.decimal n = Multer.decimal m -> n = m.
Proof.
  unfold Multer.decimal. intros H. apply DecimalN.Unsigned.to_uint_inj.
  assert (forall k, N.to_uint k <> Decimal.Nil) as Hnn.
  { intros [|p]; [discriminate | apply DecimalPos.Unsigned.to_uint_nonnil]. }
  apply (f_equal NilZero.uint_of_string) in H.
  rewrite !NilZero.usu in H by apply Hnn. injection H as H. exact H.
Qed.

Lemma cut_at_first (c : ascii) (a1 a2 b1 b2 : string) :
  free_of c a1 = true -> free_of c a2 = true ->
  a1 +:+ String c b1 = a2 +:+ String c b2 -> a1 = a2 /\ b1 = b2.
Proof.
  revert a2. induction a1 as [|x a1 IH]; intros [|y a2]; simpl; intros H1 H2 Heq.
  - injection Heq as ->. split; reflexivity.
  - injection Heq as <- _. rewrite Ascii.eqb_refl in H2. discriminate.
  - injection Heq as -> _. rewrite Ascii.eqb_refl in H1. discriminate.
  - injection Heq as -> Heq.
    apply andb_prop in H1 as [_ H1]. apply andb_prop in H2 as [_ H2].
    destruct (IH a2 H1 H2 Heq) as [-> ->]. split; reflexivity.
Qed.

(** The generated name tells the upload: two uploads get the same file name
    exactly when they have the same timestamp and the same original name.
    Uploads of different milliseconds never overwrite each other, and two
    uploads of one name within one millisecond share one file. *)
Theorem storage_filename_injective (E1 E2 : env) (f1 f2 : file_part) :
  Multer.storage_filename E1 f1 = Multer.storage_filename E2 f2
  <-> now E1 = now E2 /\ originalname f1 = originalname f2.
Proof.
  unfold Multer.storage_filename. split.
  - intros H. apply cut_at_first in H as [Hn Ho]; try apply free_of_decimal.
    split; [apply decimal_injective; exact Hn | exact Ho].
  - intros [-> ->]. reflexivity.
Qed.

Lemma storage_filename_injective_witness :
  Multer.storage_filename Scene.E1 {| originalname := "a.png" |}
  <> Multer.storage_filename Scene.E2 {| originalname := "a.png" |}.
Proof.
  intros H.
  apply (storage_filename_injective Scene.E1 Scene.E2
           {| originalname := "a.png" |} {| originalname := "a.png" |}) in H as [Hn _].
  discriminate Hn.
Defined.

(** ** Where an upload lands and where [unlink] looks for it *)


Lemma split_nonnil (s : string) : Path.split s <> [].
Proof.
  destruct s as [|c r]; simpl; [discriminate|].
  destruct (Ascii.eqb c Path.sep); [discriminate|].
  destruct (Path.split r); discriminate.
Qed.

Lemma split_cons (c : ascii) (r : string) :
  Ascii.eqb c Path.sep = false ->
  exists seg segs, Path.split r = seg :: segs
                   /\ Path.split (String c r) = String c seg :: segs.
Proof.
  intros Hc. destruct (Path.split r) as [|seg segs] eqn:Hr.
  - destruct (split_nonnil r Hr).
  - exists seg, segs. split; [reflexivity|]. simpl. rewrite Hc, Hr. reflexivity.
Qed.

Lemma split_at_sep (a b : string) :
  Path.split (a +:+ String Path.sep b) = (Path.split a ++ Path.split b)%list.
Proof.
  induction a as [|c r IH]; [reflexivity|].
  change (String c r +:+ String Path.sep b) with (String c (r +:+ String Path.sep b)).
  destruct (Ascii.eqb c Path.sep) eqn:Hc.
  - simpl. rewrite Hc, IH. reflexivity.
  - destruct (split_cons c r Hc) as (seg & segs & Hr & ->).
    simpl. rewrite Hc, IH, Hr. reflexivity.
Qed.

Lemma split_concat_with (segs : list string) :
  Forall clean_segment segs -> segs <> [] -> Path.split (Path.concat_with segs) = segs.
Proof.
  induction 1 as [|seg rest Hseg Hrest IH]; intros Hne; [congruence|].
  destruct rest as [|seg' rest]; [apply Hseg|].
  change (Path.concat_with (seg :: seg' :: rest))
    with (seg +:+ String Path.sep (Path.concat_with (seg' :: rest))).
  rewrite split_at_sep, IH by discriminate. destruct Hseg as [-> _]. reflexivity.
Qed.

Lemma push_clean (b : bool) (acc : list string) (seg : string) :
  clean_segment seg -> Path.push_segment b acc seg = seg :: acc.
Proof.
  intros (_ & H0 & H1 & H2). unfold Path.push_segment.
  apply String.eqb_neq in H0, H1, H2. rewrite H0, H1, H2. reflexivity.
Qed.

Lemma fold_clean (b : bool) (segs acc : list string) :
  Forall clean_segment segs ->
  fold_left (Path.push_segment b) segs acc = (rev segs ++ acc)%list.
Proof.
  intros H. revert acc. induction H as [|seg rest Hseg Hrest IH]; intros acc; simpl;
    [reflexivity|].
  rewrite push_clean by exact Hseg. rewrite IH, <- app_assoc. reflexivity.
Qed.

(** The segments of a directory given by its clean segments; the root is
    the directory with none. *)
Lemma fold_directory (b : bool) (ds acc : list string) :
  Forall clean_segment ds ->
  fold_left (Path.push_segment b) (Path.split (Path.concat_with ds)) acc
  = (rev ds ++ acc)%list.
Proof.
  intros Hds. destruct ds as [|seg rest]; [reflexivity|].
  rewrite split_concat_with by (exact Hds || discriminate).
  apply fold_clean, Hds.
Qed.

Lemma concat_with_nonempty (seg : string) (rest : list string) :
  seg <> "" -> Path.concat_with (seg :: rest) <> "".
Proof.
  intros Hseg. destruct seg as [|c r]; [congruence|].
  destruct rest; simpl; discriminate.
Qed.

Lemma concat_with_app_nonempty (ds : list string) (a b : string) :
  Forall clean_segment ds -> a <> "" ->
  String.eqb (Path.concat_with (ds ++ [a; b])) "" = false.
Proof.
  intros Hds Ha. apply String.eqb_neq. destruct Hds as [|seg rest Hseg Hrest].
  - apply concat_with_nonempty, Ha.
  - apply concat_with_nonempty, Hseg.
Qed.

(** The file name multer generates is a clean segment when the original
    name has no separator. *)
Lemma generated_name_clean (n : N) (orig : string) :
  Path.split orig = [orig] ->
  clean_segment (Multer.decimal n +:+ "-" +:+ orig).
Proof.
  intros Horig.
  assert (free_of "-" (Multer.decimal n +:+ "-" +:+ orig) = false) as Hdash.
  { pose proof (free_of_decimal n) as Hd.
    induction (Multer.decimal n) as [|c r IH]; simpl in *; [reflexivity|].
    apply andb_prop in Hd as [-> Hd]. simpl. apply IH, Hd. }
  split; [|repeat split; intros Heq; rewrite Heq in Hdash; discriminate].
  apply split_app_single; [apply split_decimal|].
  apply (split_app_single "-"); [reflexivity | exact Horig].
Qed.

Lemma no_trailing_sep (seg : string) :
  seg <> "" -> match seg with "" => true | String _ _ => false end = false.
Proof. destruct seg; [congruence | reflexivity]. Qed.

Section Landing.
Variables (ds : list string) (gen : string).
Hypothesis Hds : Forall clean_segment ds.
Hypothesis Hgen : clean_segment gen.

(** An absolute path whose segments end in the upload directory and the
    generated name, and whose front normalizes to the directory. *)
Lemma normalize_landing (body : string) (front : list string) :
  Path.split body = (front ++ ["uploads"; gen])%list ->
  fold_left (Path.push_segment false) front [] = rev ds ->
  Path.normalize (String Path.sep body)
  = "/" +:+ Path.concat_with (ds ++ ["uploads"; gen]).
Proof.
  intros Hsplit Hfront. destruct Hgen as (_ & Hne & _).
  unfold Path.normalize. simpl String.eqb. cbv iota.
  unfold Path.is_absolute, Path.has_trailing_sep, Path.normalize_segments.
  rewrite Ascii.eqb_refl. simpl negb.
  change (Path.split (String Path.sep body)) with ("" :: Path.split body).
  rewrite Hsplit.
  assert (last ("" :: front ++ ["uploads"; gen]) = Some gen) as ->
    by (rewrite app_comm_cons, last_app; reflexivity).
  rewrite (no_trailing_sep gen) by exact Hne.
  simpl fold_left. change (Path.push_segment false [] "") with (@nil string).
  rewrite fold_left_app, Hfront.
  simpl fold_left. rewrite !push_clean by (exact Hgen || (repeat split; discriminate)).
  simpl rev. rewrite rev_involutive, <- !app_assoc. simpl app.
  rewrite concat_with_app_nonempty by (exact Hds || discriminate).
  reflexivity.
Qed.

(** [path.join(__dirname, "/uploads/<name>")] *)
Lemma join_dirname_image :
  Path.join ("/" +:+ Path.concat_with ds) ("/uploads/" +:+ gen)
  = "/" +:+ Path.concat_with (ds ++ ["uploads"; gen]).
Proof.
  destruct Hgen as (Hsplit & _).
  unfold Path.join. simpl String.eqb. cbv iota.
  change (("/" +:+ Path.concat_with ds) +:+ "/" +:+ "/uploads/" +:+ gen)
    with (String Path.sep
            (Path.concat_with ds
             +:+ String Path.sep (String Path.sep ("uploads" +:+ String Path.sep gen)))).
  apply (normalize_landing _ (Path.split (Path.concat_with ds) ++ [""])).
  - rewrite split_at_sep.
    change (Path.split (String Path.sep ("uploads" +:+ String Path.sep gen)))
      with ("" :: Path.split ("uploads" +:+ String Path.sep gen)).
    rewrite split_at_sep, Hsplit, <- app_assoc. reflexivity.
  - rewrite fold_left_app, fold_directory by exact Hds. apply app_nil_r.
Qed.

(** The directory joined with the relative path of an upload. *)
Lemma join_cwd_upload :
  Path.join ("/" +:+ Path.concat_with ds) ("uploads/" +:+ gen)
  = "/" +:+ Path.concat_with (ds ++ ["uploads"; gen]).
Proof.
  destruct Hgen as (Hsplit & _).
  unfold Path.join. simpl String.eqb. cbv iota.
  change (("/" +:+ Path.concat_with ds) +:+ "/" +:+ "uploads/" +:+ gen)
    with (String Path.sep (Path.concat_with ds
                           +:+ String Path.sep ("uploads" +:+ String Path.sep gen))).
  apply (normalize_landing _ (Path.split (Path.concat_with ds))).
  - rewrite split_at_sep, split_at_sep, Hsplit. reflexivity.
  - rewrite fold_directory by exact Hds. apply app_nil_r.
Qed.

(** A landed path is already normal. *)
Lemma normalize_landed :
  Path.normalize ("/" +:+ Path.concat_with (ds ++ ["uploads"; gen]))
  = "/" +:+ Path.concat_with (ds ++ ["uploads"; gen]).
Proof.
  apply (normalize_landing _ ds).
  - apply split_concat_with.
    + apply Forall_app. split; [exact Hds|].
      constructor; [split; [reflexivity | repeat split; discriminate]|].
      constructor; [exact Hgen | constructor].
    + destruct ds; discriminate.
  - rewrite fold_clean by exact Hds. apply app_nil_r.
Qed.

(** [path.join('uploads/', <name>)], as multer computes it. *)
Lemma join_destination : Path.join "uploads/" gen = "uploads/" +:+ gen.
Proof.
  pose proof Hgen as (Hsplit & Hne & _).
  unfold Path.join. simpl String.eqb. cbv iota.
  assert (String.eqb gen "" = false) as -> by (apply String.eqb_neq; exact Hne).
  unfold Path.normalize, Path.is_absolute, Path.has_trailing_sep, Path.normalize_segments.
  cbv beta iota delta [String.append]. simpl. rewrite Hsplit. simpl.
  rewrite (no_trailing_sep gen) by exact Hne.
  change (Path.push_segment true (Path.push_segment true [] "uploads") "")
    with ["uploads"].
  rewrite push_clean by exact Hgen. reflexivity.
Qed.

End Landing.

Lemma locate_landing (E E' : env) (ds : list string) (file : file_part) :
  Forall clean_segment ds ->
  cwd E = "/" +:+ Path.concat_with ds ->
  __dirname E' = "/" +:+ Path.concat_with ds ->
  Path.split (originalname file) = [originalname file] ->
  Fs.locate E (Path.join Multer.destination (Multer.storage_filename E file))
    = "/" +:+ Path.concat_with (ds ++ ["uploads"; Multer.storage_filename E file])
  /\ Fs.locate E' (Path.join (__dirname E') ("/uploads/" +:+ Multer.storage_filename E file))
     = "/" +:+ Path.concat_with (ds ++ ["uploads"; Multer.storage_filename E file]).
Proof.
  intros Hds Hcwd Hdir Horig. set (generated := Multer.storage_filename E file).
  assert (clean_segment generated) as Hgen by (apply generated_name_clean; exact Horig).
  unfold Fs.locate, Multer.destination. split.
  - rewrite (join_destination generated Hgen). simpl Path.is_absolute. cbv iota.
    rewrite Hcwd. apply join_cwd_upload; assumption.
  - rewrite Hdir, (join_dirname_image ds generated Hds Hgen).
    simpl Path.is_absolute. cbv iota. apply normalize_landed; assumption.
Qed.

(** When the server runs in the directory of its script, multer stores an
    upload exactly where [unlink] will look for the image of the document:
    both paths are the directory, [uploads] and the generated name. *)
Theorem upload_lands_where_unlink_looks
    (E E' : env) (ds : list string) (file : file_part) :
  Forall clean_segment ds ->
  cwd E = "/" +:+ Path.concat_with ds ->
  __dirname E' = "/" +:+ Path.concat_with ds ->
  Path.split (originalname file) = [originalname file] ->
  let generated := Multer.storage_filename E file in
  Fs.locate E (Path.join Multer.destination generated)
    = "/" +:+ Path.concat_with (ds ++ ["uploads"; generated])
  /\ Fs.locate E' (Path.join (__dirname E') ("/uploads/" +:+ generated))
     = "/" +:+ Path.concat_with (ds ++ ["uploads"; generated]).
Proof.
  intros Hds Hcwd Hdir Horig generated. apply locate_landing; assumption.
Qed.

Lemma upload_lands_where_unlink_looks_witness :
  Fs.locate Scene.E1
      (Path.join Multer.destination
         (Multer.storage_filename Scene.E1 {| originalname := "brush.png" |}))
    = "/srv/app/uploads/1700000000000-brush.png"
  /\ Fs.locate Scene.E2
       (Path.join (__dirname Scene.E2)
          ("/uploads/" +:+ Multer.storage_filename Scene.E1 {| originalname := "brush.png" |}))
     = "/srv/app/uploads/1700000000000-brush.png".
Proof.
  apply (upload_lands_where_unlink_looks Scene.E1 Scene.E2 ["srv"; "app"]
           {| originalname := "brush.png" |});
    try reflexivity.
  constructor; [split; [reflexivity | repeat split; discriminate]|].
  constructor; [split; [reflexivity | repeat split; discriminate] | constructor].
Defined.

Lemma v2_delete_with_image
    (E : env) (req : request) (w : world) (p : product) (img : string) :
  db_fault E (FindById (params_id req)) = None ->
  db_fault E (FindByIdAndDelete (params_id req)) = None ->
  lookup (params_id req) (db w) = Some p ->
  existing_image (Some p) = Some img ->
  Fs.unlink_error E (Path.join (__dirname E) img) w = None ->
  V2.delete_products_id E req w
    = (with_db (delete_first (params_id req) (db w))
         (with_files (files w ∖ {[Fs.locate E (Path.join (__dirname E) img)]}) w),
       inr {| status := 200; body := JMessage "Product deleted successfully" |}).
Proof.
  intros Hfind Hdel Hp Himg Hunlink. run. rewrite Hfind. simpl.
  rewrite Hp, Himg, Hunlink. simpl. rewrite Hdel. simpl. rewrite Hp. reflexivity.
Qed.

(** In variant 2, run from the directory of its script, creating a product
    with a picture and then deleting it leaves the world as it was before
    the two requests: no document, no file, no line on the console. *)
Theorem v2_post_then_delete_restores_world
    (E E' : env) (req req' : request) (file : file_part) (w : world)
    (ds : list string) (n d : string) (q : number) :
  body_name req = Some n -> n <> "" ->
  body_price req = Some q ->
  body_description req = Some d -> d <> "" ->
  file_image req = Some file ->
  Path.split (originalname file) = [originalname file] ->
  db_fault E Save = None ->
  lookup (new_oid E) (db w) = None ->
  params_id req' = new_oid E ->
  db_fault E' (FindById (new_oid E)) = None ->
  db_fault E' (FindByIdAndDelete (new_oid E)) = None ->
  Forall clean_segment ds ->
  cwd E = "/" +:+ Path.concat_with ds ->
  __dirname E' = "/" +:+ Path.concat_with ds ->
  let landed :=
    "/" +:+ Path.concat_with (ds ++ ["uploads"; Multer.storage_filename E file]) in
  landed ∉ files w ->
  unlink_fault E' landed = None ->
  exists w1 created,
    V2.post_products E req w = (w1, inr {| status := 200; body := JProduct created |})
    /\ landed ∈ files w1
    /\ V2.delete_products_id E' req' w1
       = (w, inr {| status := 200; body := JMessage "Product deleted successfully" |}).
Proof.
  intros Hn Hn0 Hq Hd Hd0 Hfile Horig Hsave Hfresh Hid Hfind Hdel Hds Hcwd Hdir
    landed Hnew Hfault.
  destruct (locate_landing E E' ds file Hds Hcwd Hdir Horig) as [Hthere Hlook].
  fold landed in Hthere, Hlook.
  destruct (post_valid E req w n d q Hn Hn0 Hq Hd Hd0 Hsave Hfresh) as [_ H2].
  rewrite Hfile in H2. rewrite (single_with_file E req file w Hfile) in H2.
  simpl fst in H2. unfold Multer.destination in Hthere.
  change (Multer.decimal (now E) +:+ "-" +:+ originalname file)
    with (Multer.storage_filename E file) in H2.
  rewrite Hthere in H2.
  set (created := {| _id := new_oid E; name := n |}) in *.
  set (w1 := with_db _ _) in *.
  exists w1, created. split; [exact H2|]. split; [simpl; set_solver|].
  assert (lookup (new_oid E) (db w1) = Some created) as Hl
    by apply (lookup_append_fresh (db w) created Hfresh).
  assert (existing_image (Some created)
          = Some ("/uploads/" +:+ Multer.storage_filename E file)) as Himg by reflexivity.
  assert (Fs.unlink_error E'
            (Path.join (__dirname E') ("/uploads/" +:+ Multer.storage_filename E file)) w1
          = None) as Hunlink.
  { unfold Fs.unlink_error. rewrite Hlook.
    destruct (decide (landed ∈ files w1)) as [_|Hout]; [exact Hfault|].
    exfalso. apply Hout. simpl. set_solver. }
  rewrite <- Hid in Hfind, Hdel, Hl.
  rewrite (v2_delete_with_image E' req' w1 created _ Hfind Hdel Hl Himg Hunlink).
  rewrite Hlook, Hid. f_equal.
  destruct w as [wdb wfiles wconsole]. unfold w1, with_db, with_files. simpl.
  f_equal.
  - apply (delete_first_append_fresh wdb created Hfresh).
  - simpl in Hnew. apply set_eq. intros x.
    rewrite elem_of_difference, elem_of_union, !elem_of_singleton. split.
    + intros [[-> | Hx] Hne]; [congruence | exact Hx].
    + intros Hx. split; [right; exact Hx | intros ->; exact (Hnew Hx)].
Qed.

Lemma v2_post_then_delete_restores_world_witness :
  exists w1 created,
    V2.post_products Scene.E1
        (Scene.form "" (Some "Brush") (Some {| originalname := "brush.png" |})) Scene.empty
      = (w1, inr {| status := 200; body := JProduct created |})
    /\ "/" +:+ Path.concat_with
                (["srv"; "app"]
                 ++ ["uploads"; Multer.storage_filename Scene.E1 {| originalname := "brush.png" |}])
       ∈ files w1
    /\ V2.delete_products_id Scene.E2 (Scene.form "65a0c0ffee0000000000a001" None None) w1
       = (Scene.empty,
          inr {| status := 200; body := JMessage "Product deleted successfully" |}).
Proof.
  apply (v2_post_then_delete_restores_world Scene.E1 Scene.E2
           (Scene.form "" (Some "Brush") (Some {| originalname := "brush.png" |}))
           (Scene.form "65a0c0ffee0000000000a001" None None)
           {| originalname := "brush.png" |} Scene.empty ["srv"; "app"]
           "Brush" "Blue ink" (3 # 2)%Q);
    try solve [reflexivity | discriminate].
  constructor; [split; [reflexivity | repeat split; discriminate]|].
  constructor; [split; [reflexivity | repeat split; discriminate] | constructor].
Defined.

(** ** Reading the status *)

(** While the database rejects every call, every route of both variants
    answers 500 and the collection is not touched. *)
Theorem database_outage_is_500 (E : env) (req : request) (w : world) :
  (forall c, db_fault E c <> None) ->
  (exists w' r, V1.post_products E req w = (w', inr r) /\ status r = 500 /\ db w' = db w)
  /\ (exists w' r, V2.post_products E req w = (w', inr r) /\ status r = 500 /\ db w' = db w)
  /\ (exists w' r, V1.get_products E req w = (w', inr r) /\ status r = 500 /\ db w' = db w)
  /\ (exists w' r, V2.get_products E req w = (w', inr r) /\ status r = 500 /\ db w' = db w)
  /\ (exists w' r, V1.put_products_id E req w = (w', inr r)
                   /\ status r = 500 /\ db w' = db w)
  /\ (exists w' r, V2.put_products_id E req w = (w', inr r)
                   /\ status r = 500 /\ db w' = db w)
  /\ (exists w' r, V1.delete_products_id E req w = (w', inr r)
                   /\ status r = 500 /\ db w' = db w)
  /\ (exists w' r, V2.delete_products_id E req w = (w', inr r)
                   /\ status r = 500 /\ db w' = db w).
Proof.
  intros Hdown. repeat split; run; branch;
    try match goal with
        | H : db_fault E ?c = None |- _ => destruct (Hdown c H)
        end;
    eexists _, _; repeat split; reflexivity.
Qed.

Lemma database_outage_is_500_witness :
  exists w' r,
    V2.delete_products_id Outage.E (Scene.form "65a0c0ffee0000000000a001" None None) Scene.shop
      = (w', inr r)
    /\ status r = 500 /\ db w' = db Scene.shop.
Proof.
  destruct (database_outage_is_500 Outage.E
              (Scene.form "65a0c0ffee0000000000a001" None None) Scene.shop)
    as (_ & _ & _ & _ & _ & _ & _ & H).
  - intros c. discriminate.
  - exact H.
Defined.

(** A 404 tells the truth: PUT and DELETE answer 404 only when no document
    of the collection has the id, and then the collection is as it was; and
    they answer 200 only when a document had the id. *)
Theorem not_found_means_absent (E : env) (req : request) (w w' : world) (r : response) :
  V1.put_products_id E req w = (w', inr r) \/ V2.put_products_id E req w = (w', inr r)
  \/ V1.delete_products_id E req w = (w', inr r)
  \/ V2.delete_products_id E req w = (w', inr r) ->
  (status r = 404 -> lookup (params_id req) (db w) = None /\ db w' = db w)
  /\ (status r = 200 -> exists p, lookup (params_id req) (db w) = Some p).
Proof.
  intros [H|[H|[H|H]]]; revert H; run; branch; intros [= <- <-]; simpl;
    (split; intros Hst; try discriminate Hst);
    try (split; [assumption | reflexivity]); eauto.
Qed.

Lemma not_found_means_absent_witness :
  lookup "65a0c0ffee0000000000beef" (db Scene.shop) = None
  /\ db (fst (V2.put_products_id Scene.E2
                (Scene.form "65a0c0ffee0000000000beef" None None) Scene.shop))
     = db Scene.shop.
Proof.
  apply (not_found_means_absent Scene.E2 (Scene.form "65a0c0ffee0000000000beef" None None)
           Scene.shop
           (fst (V2.put_products_id Scene.E2
                   (Scene.form "65a0c0ffee0000000000beef" None None) Scene.shop))
           {| status := 404; body := JMessage "Product not found" |}).
  - right. left. reflexivity.
  - reflexivity.
Defined.
